(** * voe-js: the VOE client and its error normalisation

    A shallow embedding of the [VOE] client class (constructor, the twelve
    endpoint methods, the response interceptor and the private
    [requestWithErrorHandling] wrapper) together with the part of the HTTP
    library (axios) the class relies on: instance defaults, the merge of the
    default query parameters with the per-request ones, the interceptor chain
    and the rule that decides which replies reject the request promise.

    Asynchronous methods are modelled as computations in a small monad [M]
    that reads the upstream (what the network answers to a request), records
    the observable effects in order (log lines and requests handed to the
    transport) and either returns a value or throws. *)

From Stdlib Require Import String List ZArith Bool Lia DecimalString.
Import ListNotations.
Open Scope string_scope.
Open Scope Z_scope.
Local Set Warnings "-register-all".

(** ** Numbers

    A number reaches the client as a literal, an integer [n] or a decimal
    [d * 10^e], and is the binary64 value nearest to it.  Its string form is
    the one template literals and [Error]'s constructor produce: the
    shortest digits that read back as the same value, written plainly when
    the decimal point falls within 21 digits and in exponent form
    otherwise. *)

(** A number value: zero, an infinity, or a finite magnitude [m * 2^q]. *)
Inductive Magnitude :=
| MZero
| MInfinity
| MFinite (m q : Z).

(** [floor (log2 (a / b))] for positive [a], [b]. *)
Definition floor_log2_ratio (a b : Z) : Z :=
  let t := Z.log2 a - Z.log2 b in
  if 0 <=? t then (if b * 2 ^ t <=? a then t else t - 1)
  else (if b <=? a * 2 ^ (- t) then t else t - 1).

(** The binary64 value nearest to [a / b] (ties to even), for positive [a],
    [b]: 53 significant bits, exponents from -1074 to 971. *)
Definition round_ratio (a b : Z) : Magnitude :=
  let t := floor_log2_ratio a b in
  let q := Z.max (t - 52) (-1074) in
  let num := if 0 <=? q then a else a * 2 ^ (- q) in
  let den := if 0 <=? q then b * 2 ^ q else b in
  let m0 := num / den in
  let r := num mod den in
  let m := if den <? 2 * r then m0 + 1
           else if 2 * r =? den then (if Z.odd m0 then m0 + 1 else m0)
           else m0 in
  let mq := if m =? 2 ^ 53 then (2 ^ 52, q + 1) else (m, q) in
  if fst mq =? 0 then MZero
  else if 971 <? snd mq then MInfinity
  else MFinite (fst mq) (snd mq).

(** The magnitude of the number written [d * 10^e]. *)
Definition magnitude (d e : Z) : Magnitude :=
  if d =? 0 then MZero
  else if 0 <=? e then round_ratio (Z.abs d * 10 ^ e) 1
  else round_ratio (Z.abs d) (10 ^ (- e)).

(** One step of the search for the shortest decimal: with [k] digits, the
    two multiples of [10^(n-k)] around [m * 2^q], kept when they round back
    to it; the nearer when both do. *)
Definition candidate (m q n k : Z) : option (Z * Z) :=
  let e := n - k in
  let u := q - 2 in
  let unit := 2 ^ (Z.max 0 u) * 10 ^ (Z.max 0 (- e)) in
  let grid := 10 ^ (Z.max 0 e) * 2 ^ (Z.max 0 (- u)) in
  let x := 4 * m * unit in
  let hi := (4 * m + 2) * unit in
  let lo := (if (m =? 2 ^ 52) && (-1074 <? q) then 4 * m - 1 else 4 * m - 2)
            * unit in
  let inside v := if Z.even m then (lo <=? v) && (v <=? hi)
                  else (lo <? v) && (v <? hi) in
  let s1 := x / grid in
  let v1 := s1 * grid in
  let v2 := v1 + grid in
  match inside v1, inside v2 with
  | true, true =>
      if x - v1 <? v2 - x then Some (s1, e)
      else if v2 - x <? x - v1 then Some (s1 + 1, e)
      else Some (if Z.even s1 then s1 else s1 + 1, e)
  | true, false => Some (s1, e)
  | false, true => Some (s1 + 1, e)
  | false, false => None
  end.

Fixpoint search (fuel : nat) (m q n k : Z) : Z * Z :=
  match fuel with
  | O => (0, 0)
  | S fuel' =>
      match candidate m q n k with
      | Some se => se
      | None => search fuel' m q n (k + 1)
      end
  end.

(** Whether [10^(n-1) <= m * 2^q]. *)
Definition at_least_pow10 (m q n : Z) : bool :=
  let p := n - 1 in
  (10 ^ (Z.max 0 p) * 2 ^ (Z.max 0 (- q)))
  <=? (m * 2 ^ (Z.max 0 q) * 10 ^ (Z.max 0 (- p))).

(** The [n] with [10^(n-1) <= m * 2^q < 10^n]. *)
Definition decimal_exponent (m q : Z) : Z :=
  let est := ((Z.log2 m + q) * 30103) / 100000 in
  if at_least_pow10 m q (est + 3) then est + 3
  else if at_least_pow10 m q (est + 2) then est + 2
  else if at_least_pow10 m q (est + 1) then est + 1
  else est.

Fixpoint strip_zeros (fuel : nat) (s e : Z) : Z * Z :=
  match fuel with
  | O => (s, e)
  | S fuel' =>
      if (s mod 10 =? 0) && negb (s =? 0) then strip_zeros fuel' (s / 10) (e + 1)
      else (s, e)
  end.

Definition digits_of (n : Z) : string := NilZero.string_of_int (Z.to_int n).

Fixpoint zeros (n : nat) : string :=
  match n with
  | O => ""
  | S n' => "0" ++ zeros n'
  end.

(** Number::toString on a positive finite number given by its shortest
    digits [s] and the position [n] of its decimal point. *)
Definition layout (s n : Z) : string :=
  let ds := digits_of s in
  let k := Z.of_nat (String.length ds) in
  if (k <=? n) && (n <=? 21) then ds ++ zeros (Z.to_nat (n - k))
  else if (0 <? n) && (n <=? 21) then
    substring 0 (Z.to_nat n) ds ++ "." ++ substring (Z.to_nat n) (Z.to_nat (k - n)) ds
  else if (-6 <? n) && (n <=? 0) then "0." ++ zeros (Z.to_nat (- n)) ++ ds
  else
    let e := n - 1 in
    let mantissa := if k =? 1 then ds
                    else substring 0 1 ds ++ "." ++ substring 1 (Z.to_nat (k - 1)) ds in
    mantissa ++ "e" ++ (if 0 <=? e then "+" else "-") ++ digits_of (Z.abs e).

Definition magnitude_to_string (x : Magnitude) : string :=
  match x with
  | MZero => "0"
  | MInfinity => "Infinity"
  | MFinite m q =>
      let se := search 17 m q (decimal_exponent m q) 1 in
      let se' := strip_zeros 400 (fst se) (snd se) in
      let k := Z.of_nat (String.length (digits_of (fst se'))) in
      layout (fst se') (k + snd se')
  end.

(** Number::toString of the number written [d * 10^e]. *)
Definition decimal_to_string (d e : Z) : string :=
  match magnitude d e with
  | MZero => "0"
  | x => (if d <? 0 then "-" else "") ++ magnitude_to_string x
  end.

(** The string form of the integer [n]. *)
Definition number_to_string (n : Z) : string := decimal_to_string n 0.

Arguments number_to_string : simpl never.
Arguments decimal_to_string : simpl never.
Arguments magnitude : simpl never.

(** ** JavaScript values *)

(** Values that reach the client from JSON bodies and from callers.  A
    number is the integer [n] or the decimal [d * 10^e].  An object is its
    list of own properties in insertion order, each key once. *)
Inductive Value : Type :=
| VUndefined
| VNull
| VBool (b : bool)
| VNum (n : Z)
| VDec (d e : Z)
| VStr (s : string)
| VArr (items : list Value)
| VObj (fields : list (string * Value)).

Definition Object := list (string * Value).

(** ToBoolean: the test behind [!x], [if (x)] and [x || y]. *)
Definition truthy (v : Value) : bool :=
  match v with
  | VUndefined | VNull => false
  | VBool b => b
  | VNum n => negb (n =? 0)
  | VDec d e => match magnitude d e with MZero => false | _ => true end
  | VStr s => negb (s =? "")%string
  | VArr _ | VObj _ => true
  end.

(** [a || b] *)
Definition or_else (a b : Value) : Value := if truthy a then a else b.

Fixpoint lookup (o : Object) (k : string) : option Value :=
  match o with
  | [] => None
  | (k', v) :: o' => if (k' =? k)%string then Some v else lookup o' k
  end.

(** [o[k] = v] on an object: an existing key keeps its place. *)
Fixpoint assign (o : Object) (k : string) (v : Value) : Object :=
  match o with
  | [] => [(k, v)]
  | (k', v') :: o' =>
      if (k' =? k)%string then (k, v) :: o' else (k', v') :: assign o' k v
  end.

Definition join (sep : string) (parts : list string) : string :=
  match parts with
  | [] => ""
  | p :: ps => fold_left (fun acc q => acc ++ sep ++ q)%string ps p
  end.

(** ToString first asks an object for its [toString]; an own property of
    that name, which in a JSON value is never a function, hides the
    inherited one, and the conversion is then a TypeError.  Arrays convert
    their elements ([null] and [undefined] apart) the same way. *)
Fixpoint convertible (v : Value) : bool :=
  match v with
  | VArr items =>
      forallb (fun x => match x with
                        | VUndefined | VNull => true
                        | _ => convertible x
                        end) items
  | VObj fields =>
      match lookup fields "toString" with
      | Some _ => false
      | None => true
      end
  | _ => true
  end.

Definition CANNOT_CONVERT : string :=
  "Cannot convert object to primitive value".

(** ToString of a convertible value, as applied by template literals and by
    [Error]'s constructor to its message argument.  Plain objects print as
    [[object Object]]. *)
Fixpoint to_string (v : Value) : string :=
  match v with
  | VUndefined => "undefined"
  | VNull => "null"
  | VBool true => "true"
  | VBool false => "false"
  | VNum n => number_to_string n
  | VDec d e => decimal_to_string d e
  | VStr s => s
  | VArr items =>
      join "," (map (fun x => match x with
                              | VUndefined | VNull => ""
                              | _ => to_string x
                              end) items)
  | VObj _ => "[object Object]"
  end.

Definition is_nullish (v : Value) : bool :=
  match v with
  | VUndefined | VNull => true
  | _ => false
  end.

Definition is_object (v : Value) : bool :=
  match v with
  | VObj _ => true
  | _ => false
  end.

(** ** Requests, responses and errors *)

Inductive Method := GET | POST.

Definition method_name (m : Method) : string :=
  match m with GET => "GET" | POST => "POST" end.

Definition File := list Byte.byte.

(** A [FormData] body: its appended fields in order. *)
Definition FormData := list (string * File).

(** The request configuration axios hands to its transport, after instance
    defaults and per-call configuration are merged. *)
Record Request := mkRequest {
  method : Method;
  req_baseURL : option string;
  url : string;
  params : Object;
  headers : list (string * string);
  body : option FormData
}.

Record AxiosResponse := mkResponse {
  status : Z;
  statusText : string;
  data : Value
}.

(** The error axios rejects with: [request] is set once the request was
    handed to the socket, [response] once a reply came back. *)
Record AxiosError := mkAxiosError {
  ae_message : string;
  ae_request : option Request;
  ae_response : option AxiosResponse
}.

(** [class VOEError extends Error] *)
Record VOEError := mkVOEError {
  message : string;
  name : string;
  code : string;
  response : option AxiosResponse
}.

(** What a [catch (error)] of the client can receive. *)
Inductive Thrown :=
| ThrownVOE (e : VOEError)
| ThrownAxios (e : AxiosError)
| ThrownTypeError (msg : string).

(** The object [new VOEError(message, code, response)] builds once
    [super(message)] has converted the message: it stores the message's
    string form; an undefined message leaves [Error.prototype]'s empty
    one. *)
Definition new_VOEError (msg : Value) (c : string)
    (resp : option AxiosResponse) : VOEError :=
  {| message := match msg with VUndefined => "" | _ => to_string msg end;
     name := "VOEAPIError";
     code := c;
     response := resp |}.

(** Property reads on a caught value.  A [VOEError] has the properties its
    constructor assigns ([message], [name], [code], [response]) and no
    [request]; a [TypeError] has neither [response] nor [request]. *)
Definition error_response (error : Thrown) : option AxiosResponse :=
  match error with
  | ThrownVOE e => response e
  | ThrownAxios e => ae_response e
  | ThrownTypeError _ => None
  end.

Definition error_request (error : Thrown) : bool :=
  match error with
  | ThrownVOE _ => false
  | ThrownAxios e => match ae_request e with Some _ => true | None => false end
  | ThrownTypeError _ => false
  end.

Definition error_message (error : Thrown) : string :=
  match error with
  | ThrownVOE e => message e
  | ThrownAxios e => ae_message e
  | ThrownTypeError m => m
  end.

Definition is_VOEError (error : Thrown) : bool :=
  match error with
  | ThrownVOE _ => true
  | _ => false
  end.

(** ** Effects *)

Inductive Logger :=
| CustomLogger (id : nat)
| DefaultLogger.   (* winston: console and the file voe-api.log *)

Inductive Level := LInfo | LWarn | LError.

Inductive Meta :=
| MetaValue (v : Value)
| MetaError (e : Thrown).

Inductive Event :=
| EvLog (lg : Logger) (lvl : Level) (line : string) (meta : option Meta)
| EvRequest (req : Request).

(** What the outside world does with a request handed to the transport. *)
Inductive Upstream :=
| Responds (r : AxiosResponse)
| NoResponse (why : string)     (* sent, nothing came back *)
| CannotSend (why : string).    (* failed while setting the request up *)

Definition Network := Request -> Upstream.

Inductive Result (A : Type) :=
| Return (a : A)
| Throw (e : Thrown).
Arguments Return {A} a.
Arguments Throw {A} e.

Definition M (A : Type) : Type := Network -> list Event * Result A.

Definition ret {A} (a : A) : M A := fun _ => ([], Return a).

Definition throw {A} (e : Thrown) : M A := fun _ => ([], Throw e).

Definition bind {A B} (m : M A) (k : A -> M B) : M B :=
  fun net =>
    match m net with
    | (evs, Return a) => let (evs', r) := k a net in ((evs ++ evs')%list, r)
    | (evs, Throw e) => (evs, Throw e)
    end.

(** [promise.then(onFulfilled, onRejected)] *)
Definition then_ {A B} (m : M A) (onFulfilled : A -> M B)
    (onRejected : Thrown -> M B) : M B :=
  fun net =>
    match m net with
    | (evs, Return a) => let (evs', r) := onFulfilled a net in ((evs ++ evs')%list, r)
    | (evs, Throw e) => let (evs', r) := onRejected e net in ((evs ++ evs')%list, r)
    end.

(** [try { body } catch (error) { handler }] *)
Definition try_catch {A} (body : M A) (handler : Thrown -> M A) : M A :=
  then_ body ret handler.

Definition lift {A} (r : Result A) : M A := fun _ => ([], r).

(** [throw new VOEError(message, code, response)]: the constructor's
    [super(message)] converts the message to a string, and when that fails
    it is the conversion's TypeError that is thrown. *)
Definition throw_new_VOEError {A} (msg : Value) (c : string)
    (resp : option AxiosResponse) : M A :=
  if convertible msg then throw (ThrownVOE (new_VOEError msg c resp))
  else throw (ThrownTypeError CANNOT_CONVERT).

Definition log (lg : Logger) (lvl : Level) (line : string)
    (meta : option Meta) : M unit :=
  fun _ => ([EvLog lg lvl line meta], Return tt).

Declare Scope js_scope.
Delimit Scope js_scope with js.
Notation "x <- m ;; k" := (bind m (fun x => k))
  (at level 61, m at next level, right associativity) : js_scope.
Notation "m ;; k" := (bind m (fun _ => k))
  (at level 61, right associativity) : js_scope.
Open Scope js_scope.

(** [v.name] for a name no primitive's prototype defines ([message],
    [result]): reading through [null] or [undefined] is a TypeError, reading
    a primitive or an array gives [undefined]. *)
Definition get_prop (v : Value) (prop : string) : Result Value :=
  match v with
  | VUndefined =>
      Throw (ThrownTypeError
        ("Cannot read properties of undefined (reading '" ++ prop ++ "')"))
  | VNull =>
      Throw (ThrownTypeError
        ("Cannot read properties of null (reading '" ++ prop ++ "')"))
  | VObj fields =>
      Return (match lookup fields prop with Some x => x | None => VUndefined end)
  | _ => Return VUndefined
  end.

(** ** The HTTP library *)

(** The merge of two parameter objects: keys of [a] first, [b] overriding. *)
Definition merge (a b : Object) : Object :=
  fold_left (fun acc kv => assign acc (fst kv) (snd kv)) b a.

(** The query string's parameters: those whose value is [null] or
    [undefined] are left out when the URL is built. *)
Definition query (req : Request) : Object :=
  filter (fun kv => negb (is_nullish (snd kv))) (params req).

(** Default [validateStatus]: only 2xx replies resolve the promise. *)
Definition validateStatus (s : Z) : bool := (200 <=? s) && (s <? 300).

Record AxiosInstance := mkAxios {
  defaults_baseURL : option string;
  defaults_params : Object;
  request_interceptors : list (Request -> M Request);
  response_interceptors :
    list ((AxiosResponse -> M AxiosResponse) * (Thrown -> M AxiosResponse))
}.

(** The module-level [axios]: no base URL, no default parameters and, in this
    client, no interceptor. *)
Definition axios : AxiosInstance :=
  {| defaults_baseURL := None;
     defaults_params := [];
     request_interceptors := [];
     response_interceptors := [] |}.

(** [axios.create({ baseURL, params })] *)
Definition axios_create (base : string) (ps : Object) : AxiosInstance :=
  {| defaults_baseURL := Some base;
     defaults_params := ps;
     request_interceptors := [];
     response_interceptors := [] |}.

(** [instance.interceptors.request.use(fulfilled)] *)
Definition use_request (inst : AxiosInstance) (f : Request -> M Request)
    : AxiosInstance :=
  {| defaults_baseURL := defaults_baseURL inst;
     defaults_params := defaults_params inst;
     request_interceptors := (request_interceptors inst ++ [f])%list;
     response_interceptors := response_interceptors inst |}.

(** [instance.interceptors.response.use(fulfilled, rejected)] *)
Definition use_response (inst : AxiosInstance)
    (f : AxiosResponse -> M AxiosResponse) (r : Thrown -> M AxiosResponse)
    : AxiosInstance :=
  {| defaults_baseURL := defaults_baseURL inst;
     defaults_params := defaults_params inst;
     request_interceptors := request_interceptors inst;
     response_interceptors := (response_interceptors inst ++ [(f, r)])%list |}.

(** The per-call configuration merged over the instance defaults. *)
Definition mergeConfig (inst : AxiosInstance) (m : Method) (u : string)
    (ps : option Object) (hs : list (string * string))
    (b : option FormData) : Request :=
  {| method := m;
     req_baseURL := defaults_baseURL inst;
     url := u;
     params := match ps with
               | Some p => merge (defaults_params inst) p
               | None => defaults_params inst
               end;
     headers := hs;
     body := b |}.

(** How the transport settles the promise of a request, by what the upstream
    did: a reply is checked against [validateStatus]; an error carries the
    request once it was sent and the response once one arrived. *)
Definition settle (req : Request) (reply : Upstream) : Result AxiosResponse :=
  match reply with
  | Responds r =>
      if validateStatus (status r) then Return r
      else Throw (ThrownAxios
             {| ae_message := "Request failed with status code "
                              ++ number_to_string (status r);
                ae_request := Some req;
                ae_response := Some r |})
  | NoResponse why =>
      Throw (ThrownAxios {| ae_message := why;
                            ae_request := Some req;
                            ae_response := None |})
  | CannotSend why =>
      Throw (ThrownAxios {| ae_message := why;
                            ae_request := None;
                            ae_response := None |})
  end.

(** The transport: the request goes out and the upstream's behaviour decides
    between a resolved response and a rejection. *)
Definition dispatchRequest (req : Request) : M AxiosResponse :=
  fun net => ([EvRequest req], settle req (net req)).

(** The promise chain of a request: request interceptors (last registered
    first), the transport, then each response interceptor pair as a
    [then(fulfilled, rejected)]. *)
Definition axios_request (inst : AxiosInstance) (cfg : Request)
    : M AxiosResponse :=
  fold_left (fun m fr => then_ m (fst fr) (snd fr))
    (response_interceptors inst)
    (bind (fold_left (fun m f => bind m f)
             (rev (request_interceptors inst)) (ret cfg))
          dispatchRequest).

(** [instance.get(url, { params })] *)
Definition axios_get (inst : AxiosInstance) (u : string)
    (ps : option Object) : M AxiosResponse :=
  axios_request inst (mergeConfig inst GET u ps [] None).

(** [instance.post(url, data, { headers })] *)
Definition axios_post (inst : AxiosInstance) (u : string) (d : FormData)
    (hs : list (string * string)) : M AxiosResponse :=
  axios_request inst (mergeConfig inst POST u None hs (Some d)).

(** ** The client *)

Definition API_REQUEST_FAILED : string := "API request failed".

(** The request interceptor installed by the constructor. *)
Definition request_logger (lg : Logger) (config : Request) : M Request :=
  log lg LInfo ("Request: " ++ method_name (method config) ++ " " ++ url config)
      None ;;
  ret config.

(** The response interceptor's success handler. *)
Definition response_logger (lg : Logger) (resp : AxiosResponse)
    : M AxiosResponse :=
  log lg LInfo ("Response: " ++ number_to_string (status resp) ++ " "
                ++ statusText resp) None ;;
  ret resp.

(** The response interceptor's error handler. *)
Definition response_rejected (lg : Logger) (error : Thrown)
    : M AxiosResponse :=
  match error_response error with
  | Some r =>
      log lg LError ("API Error: " ++ number_to_string (status r) ++ " "
                     ++ statusText r) None ;;
      m <- lift (get_prop (data r) "message") ;;
      throw_new_VOEError (or_else m (VStr API_REQUEST_FAILED))
                         "API_ERROR" (Some r)
  | None =>
      if error_request error then
        log lg LError "Network Error: No response received" None ;;
        throw_new_VOEError (VStr "Network error")
                           "NETWORK_ERROR" None
      else
        log lg LError ("Request Error: " ++ error_message error) None ;;
        throw_new_VOEError (VStr (error_message error))
                           "REQUEST_ERROR" None
  end.

Record VOE := mkVOE {
  apiKey : string;
  baseURL : string;
  client : AxiosInstance;
  logger : Logger
}.

Definition VOE_baseURL : string := "https://voe.sx/api".

(** [new VOE(apiKey, { logger })].  [None] is an absent key; the test
    [!apiKey] rejects it and the empty string. *)
Definition VOE_new (key : option string) (options_logger : option Logger)
    : M VOE :=
  match key with
  | None =>
      throw_new_VOEError (VStr "API key is required")
                         "MISSING_API_KEY" None
  | Some k =>
      if negb (truthy (VStr k)) then
        throw_new_VOEError (VStr "API key is required")
                           "MISSING_API_KEY" None
      else
        let lg := match options_logger with
                  | Some l => l
                  | None => DefaultLogger
                  end in
        let c0 := axios_create VOE_baseURL [("key", VStr k)] in
        let c1 := use_request c0 (request_logger lg) in
        let c2 := use_response c1 (response_logger lg) (response_rejected lg) in
        ret {| apiKey := k; baseURL := VOE_baseURL; client := c2; logger := lg |}
  end.

(** The private wrapper every JSON-endpoint method goes through. *)
Definition requestWithErrorHandling (this : VOE) (requestFn : M AxiosResponse)
    : M Value :=
  try_catch
    (resp <- requestFn ;; ret (data resp))
    (fun error =>
       match error_response error with
       | Some r =>
           log (logger this) LError
               ("API Error: " ++ number_to_string (status r) ++ " "
                ++ statusText r) (Some (MetaValue (data r))) ;;
           m <- lift (get_prop (data r) "message") ;;
           throw_new_VOEError (or_else m (VStr API_REQUEST_FAILED))
                              "API_ERROR" (Some r)
       | None =>
           if error_request error then
             log (logger this) LError "Network Error: No response received"
                 None ;;
             throw_new_VOEError (VStr "Network error")
                                "NETWORK_ERROR" None
           else
             log (logger this) LError
                 ("Request Error: " ++ error_message error) None ;;
             throw_new_VOEError (VStr (error_message error))
                                "REQUEST_ERROR" None
       end).

Definition getAccountInfo (this : VOE) : M Value :=
  requestWithErrorHandling this (axios_get (client this) "/account/info" None).

Definition getAccountStats (this : VOE) : M Value :=
  requestWithErrorHandling this (axios_get (client this) "/account/stats" None).

Definition getUploadServer (this : VOE) : M Value :=
  d <- requestWithErrorHandling this
         (axios_get (client this) "/upload/server" None) ;;
  lift (get_prop d "result").

Definition uploadFile (this : VOE) (uploadServer : string) (file : File)
    : M Value :=
  try_catch
    (let formData := [("file", file)] in
     resp <- axios_post axios uploadServer formData
               [("Content-Type", "multipart/form-data")] ;;
     ret (data resp))
    (fun error =>
       log (logger this) LError "Failed to upload file"
           (Some (MetaError error)) ;;
       throw error).

Definition remoteUpload (this : VOE) (u : string) : M Value :=
  requestWithErrorHandling this
    (axios_get (client this) "/upload/url" (Some [("url", VStr u)])).

(** [id] defaults to [null]. *)
Definition getRemoteUploadList (this : VOE) (id : option Z) : M Value :=
  requestWithErrorHandling this
    (axios_get (client this) "/upload/url/list"
       (Some [("id", match id with Some n => VNum n | None => VNull end)])).

(** [folderId] defaults to 0. *)
Definition cloneUpload (this : VOE) (fileCode : string) (folderId : option Z)
    : M Value :=
  requestWithErrorHandling this
    (axios_get (client this) "/file/clone"
       (Some [("file_code", VStr fileCode);
              ("fld_id", VNum (match folderId with Some n => n | None => 0 end))])).

Definition getFileInfo (this : VOE) (fileCodes : string) : M Value :=
  requestWithErrorHandling this
    (axios_get (client this) "/file/info" (Some [("file_code", VStr fileCodes)])).

(** The options [listFiles] declares; [None] is an absent property. *)
Record ListFilesOptions := mkListFilesOptions {
  page : option Z;
  per_page : option Z;
  fld_id : option Z;
  created : option string;
  name_filter : option string   (* the property [name] *)
}.

Definition opt_prop {A} (k : string) (inj : A -> Value) (o : option A)
    : Object :=
  match o with
  | Some a => [(k, inj a)]
  | None => []
  end.

(** The object a caller writes for declared options, in the order of the
    declaration. *)
Definition options_object (o : ListFilesOptions) : Object :=
  (opt_prop "page" VNum (page o) ++ opt_prop "per_page" VNum (per_page o)
   ++ opt_prop "fld_id" VNum (fld_id o) ++ opt_prop "created" VStr (created o)
   ++ opt_prop "name" VStr (name_filter o))%list.

(** [options] is the caller's object, handed on as [params] as it is; it
    defaults to the empty object. *)
Definition listFiles (this : VOE) (options : option Object) : M Value :=
  requestWithErrorHandling this
    (axios_get (client this) "/file/list"
       (Some (match options with
              | Some o => o
              | None => []
              end))).

Definition renameFile (this : VOE) (fileCode title : string) : M Value :=
  requestWithErrorHandling this
    (axios_get (client this) "/file/rename"
       (Some [("file_code", VStr fileCode); ("title", VStr title)])).

Definition moveFile (this : VOE) (fileCode : string) (folderId : Z) : M Value :=
  requestWithErrorHandling this
    (axios_get (client this) "/file/move"
       (Some [("file_code", VStr fileCode); ("fld_id", VNum folderId)])).

Definition deleteFile (this : VOE) (fileCode : string) : M Value :=
  requestWithErrorHandling this
    (axios_get (client this) "/file/delete" (Some [("file_code", VStr fileCode)])).

(** ** Reading the effects of a run *)

Definition events {A} (run : list Event * Result A) : list Event := fst run.

Definition outcome {A} (run : list Event * Result A) : Result A := snd run.

(** The requests handed to the transport, in order. *)
Fixpoint requests (evs : list Event) : list Request :=
  match evs with
  | [] => []
  | EvRequest req :: evs' => req :: requests evs'
  | EvLog _ _ _ _ :: evs' => requests evs'
  end.

(** A client some call of the constructor returned. *)
Definition constructed (this : VOE) : Prop :=
  exists key options_logger net,
    outcome (VOE_new key options_logger net) = Return this.

(** The JSON-endpoint methods with their arguments, so that a statement can
    range over all of them. *)
Inductive JsonCall :=
| GetAccountInfo
| GetAccountStats
| GetUploadServer
| RemoteUpload (u : string)
| GetRemoteUploadList (id : option Z)
| CloneUpload (fileCode : string) (folderId : option Z)
| GetFileInfo (fileCodes : string)
| ListFiles (options : option Object)
| RenameFile (fileCode title : string)
| MoveFile (fileCode : string) (folderId : Z)
| DeleteFile (fileCode : string).

Definition call (this : VOE) (c : JsonCall) : M Value :=
  match c with
  | GetAccountInfo => getAccountInfo this
  | GetAccountStats => getAccountStats this
  | GetUploadServer => getUploadServer this
  | RemoteUpload u => remoteUpload this u
  | GetRemoteUploadList id => getRemoteUploadList this id
  | CloneUpload fileCode folderId => cloneUpload this fileCode folderId
  | GetFileInfo fileCodes => getFileInfo this fileCodes
  | ListFiles options => listFiles this options
  | RenameFile fileCode title => renameFile this fileCode title
  | MoveFile fileCode folderId => moveFile this fileCode folderId
  | DeleteFile fileCode => deleteFile this fileCode
  end.

(** The request [client.get(u, { params: ps })] sends for a client. *)
Definition json_request (this : VOE) (u : string) (ps : option Object)
    : Request :=
  mergeConfig (client this) GET u ps [] None.

(** ** What a call does, for stating results *)

(** What the caller of [requestWithErrorHandling] gets once the request went
    through the client's interceptor chain, by upstream behaviour. *)
Definition surfaced (reply : Upstream) : Result Value :=
  match reply with
  | Responds r =>
      if validateStatus (status r) then Return (data r)
      else
        match get_prop (data r) "message" with
        | Return m =>
            if convertible (or_else m (VStr API_REQUEST_FAILED)) then
              Throw (ThrownVOE (new_VOEError
                                  (or_else m (VStr API_REQUEST_FAILED))
                                  "API_ERROR" (Some r)))
            else
              Throw (ThrownVOE (new_VOEError (VStr CANNOT_CONVERT)
                                  "REQUEST_ERROR" None))
        | Throw fault =>
            Throw (ThrownVOE (new_VOEError (VStr (error_message fault))
                                "REQUEST_ERROR" None))
        end
  | NoResponse _ =>
      Throw (ThrownVOE (new_VOEError (VStr "Network error") "REQUEST_ERROR" None))
  | CannotSend why =>
      Throw (ThrownVOE (new_VOEError (VStr why) "REQUEST_ERROR" None))
  end.

Definition call_url (c : JsonCall) : string :=
  match c with
  | GetAccountInfo => "/account/info"
  | GetAccountStats => "/account/stats"
  | GetUploadServer => "/upload/server"
  | RemoteUpload _ => "/upload/url"
  | GetRemoteUploadList _ => "/upload/url/list"
  | CloneUpload _ _ => "/file/clone"
  | GetFileInfo _ => "/file/info"
  | ListFiles _ => "/file/list"
  | RenameFile _ _ => "/file/rename"
  | MoveFile _ _ => "/file/move"
  | DeleteFile _ => "/file/delete"
  end.

Definition call_params (c : JsonCall) : option Object :=
  match c with
  | GetAccountInfo | GetAccountStats | GetUploadServer => None
  | RemoteUpload u => Some [("url", VStr u)]
  | GetRemoteUploadList id =>
      Some [("id", match id with Some n => VNum n | None => VNull end)]
  | CloneUpload fileCode folderId =>
      Some [("file_code", VStr fileCode);
            ("fld_id", VNum (match folderId with Some n => n | None => 0 end))]
  | GetFileInfo fileCodes => Some [("file_code", VStr fileCodes)]
  | ListFiles options =>
      Some (match options with
            | Some o => o
            | None => []
            end)
  | RenameFile fileCode title =>
      Some [("file_code", VStr fileCode); ("title", VStr title)]
  | MoveFile fileCode folderId =>
      Some [("file_code", VStr fileCode); ("fld_id", VNum folderId)]
  | DeleteFile fileCode => Some [("file_code", VStr fileCode)]
  end.

Definition call_request (this : VOE) (c : JsonCall) : Request :=
  json_request this (call_url c) (call_params c).

(** Whether the [message] of a body, if it can be read, converts to a
    string. *)
Definition printable_message (d : Value) : bool :=
  match get_prop d "message" with
  | Return m => convertible m
  | Throw _ => true
  end.

(** What either copy of the three-way classification throws for a caught
    [error]: the rules in the order of the [if] chain. *)
Definition classify (error : Thrown) : Thrown :=
  match error_response error with
  | Some r =>
      match get_prop (data r) "message" with
      | Return m =>
          if convertible (or_else m (VStr API_REQUEST_FAILED)) then
            ThrownVOE (new_VOEError (or_else m (VStr API_REQUEST_FAILED))
                         "API_ERROR" (Some r))
          else ThrownTypeError CANNOT_CONVERT
      | Throw fault => fault
      end
  | None =>
      if error_request error then
        ThrownVOE (new_VOEError (VStr "Network error") "NETWORK_ERROR" None)
      else
        ThrownVOE (new_VOEError (VStr (error_message error))
                     "REQUEST_ERROR" None)
  end.

(** The request [uploadFile] sends. *)
Definition upload_request (uploadServer : string) (file : File) : Request :=
  {| method := POST;
     req_baseURL := None;
     url := uploadServer;
     params := [];
     headers := [("Content-Type", "multipart/form-data")];
     body := Some [("file", file)] |}.

(** Whether a call passes a parameter named [key] of its own: only
    [listFiles] can, through its options object. *)
Definition overrides_key (c : JsonCall) : bool :=
  match c with
  | ListFiles (Some o) =>
      match lookup o "key" with
      | Some _ => true
      | None => false
      end
  | _ => false
  end.

(** A value that is one query parameter when present: a boolean, a number
    or a string. *)
Definition is_scalar (v : Value) : bool :=
  match v with
  | VBool _ | VNum _ | VDec _ _ | VStr _ => true
  | _ => false
  end.

(** An options object whose properties are scalars, [null] or
    [undefined]. *)
Definition scalar_options (o : Object) : bool :=
  forallb (fun kv => is_scalar (snd kv) || is_nullish (snd kv)) o.

(** The loggers that received a line, in order. *)
Fixpoint log_sinks (evs : list Event) : list Logger :=
  match evs with
  | [] => []
  | EvLog lg _ _ _ :: evs' => lg :: log_sinks evs'
  | EvRequest _ :: evs' => log_sinks evs'
  end.

(** ** Sample inputs *)

Definition example_client : VOE :=
  {| apiKey := "k";
     baseURL := VOE_baseURL;
     client :=
       use_response
         (use_request (axios_create VOE_baseURL [("key", VStr "k")])
            (request_logger DefaultLogger))
         (response_logger DefaultLogger) (response_rejected DefaultLogger);
     logger := DefaultLogger |}.

Definition reply_with (st : Z) (tx : string) (d : Value) : Network :=
  fun _ => Responds {| status := st; statusText := tx; data := d |}.

Definition connection_drop : Network :=
  fun _ => NoResponse "timeout of 1000ms exceeded".

Definition example_file : File := [Byte.x68; Byte.x69].

(** ** String forms *)

(** The string forms of some numbers and values, as JavaScript prints
    them. *)
Lemma string_forms :
  number_to_string 404 = "404"%string /\
  number_to_string (-42) = "-42"%string /\
  number_to_string 9007199254740993 = "9007199254740992"%string /\
  number_to_string 1152921504606846976 = "1152921504606847000"%string /\
  number_to_string 123456789012345680000 = "123456789012345680000"%string /\
  number_to_string 1000000000000000000000 = "1e+21"%string /\
  decimal_to_string 15 (-1) = "1.5"%string /\
  decimal_to_string 1 (-6) = "0.000001"%string /\
  decimal_to_string 1 (-7) = "1e-7"%string /\
  decimal_to_string 5 (-324) = "5e-324"%string /\
  decimal_to_string 1 400 = "Infinity"%string /\
  decimal_to_string 1 (-400) = "0"%string /\
  to_string (VArr [VNum 1; VNull; VArr [VDec 25 (-1); VStr "x"]; VObj []])
  = "1,,2.5,x,[object Object]"%string /\
  convertible (VArr [VNum 1; VObj [("toString", VStr "x")]]) = false.
Proof. vm_compute. repeat split. Qed.

(** ** The constructor *)

Lemma VOE_new_inv key lg net evs this :
  VOE_new key lg net = (evs, Return this) ->
  exists k,
    key = Some k /\ k <> ""%string /\ evs = [] /\
    this = {| apiKey := k;
              baseURL := VOE_baseURL;
              client :=
                use_response
                  (use_request (axios_create VOE_baseURL [("key", VStr k)])
                     (request_logger (match lg with Some l => l | None => DefaultLogger end)))
                  (response_logger (match lg with Some l => l | None => DefaultLogger end))
                  (response_rejected (match lg with Some l => l | None => DefaultLogger end));
              logger := match lg with Some l => l | None => DefaultLogger end |}.
Proof.
  unfold VOE_new. destruct key as [k|]; [|discriminate].
  destruct (String.eqb_spec k "") as [->|Hk]; cbn.
  - discriminate.
  - destruct (k =? "")%string eqn:E.
    + apply String.eqb_eq in E. contradiction.
    + cbn. intros H. injection H as <- <-. exists k. repeat split; auto.
Qed.

Lemma constructed_inv this :
  constructed this ->
  exists k lg,
    k <> ""%string /\
    this = {| apiKey := k;
              baseURL := VOE_baseURL;
              client :=
                use_response
                  (use_request (axios_create VOE_baseURL [("key", VStr k)])
                     (request_logger lg))
                  (response_logger lg) (response_rejected lg);
              logger := lg |}.
Proof.
  intros (key & ol & net & H).
  destruct (VOE_new key ol net) as [evs res] eqn:E. cbn in H. subst res.
  destruct (VOE_new_inv _ _ _ _ _ E) as (k & _ & Hk & _ & ->).
  eauto.
Qed.

(** ** One JSON-endpoint round trip *)

Lemma rweh_run this u ps net :
  constructed this ->
  outcome (requestWithErrorHandling this (axios_get (client this) u ps) net)
  = surfaced (net (json_request this u ps)) /\
  requests (events (requestWithErrorHandling this (axios_get (client this) u ps) net))
  = [json_request this u ps].
Proof.
  intros C. destruct (constructed_inv _ C) as (k & lg & Hk & ->).
  unfold json_request, surfaced.
  unfold requestWithErrorHandling, axios_get, axios_request, try_catch, then_, bind.
  cbn. unfold settle.
  destruct (net _) as [[st tx d] | why | why]; cbn.
  - destruct (validateStatus st); cbn; [auto|].
    destruct d; cbn; auto.
    unfold throw_new_VOEError.
    destruct (convertible _) eqn:E; cbn; rewrite ?E; cbn; auto.
  - auto.
  - auto.
Qed.

(** Every method is the wrapper around one [client.get]; [getUploadServer]
    then reads [result] off the returned body. *)
Lemma call_unfold this c :
  call this c =
  match c with
  | GetUploadServer =>
      d <- requestWithErrorHandling this
             (axios_get (client this) (call_url c) (call_params c)) ;;
      lift (get_prop d "result")
  | _ =>
      requestWithErrorHandling this
        (axios_get (client this) (call_url c) (call_params c))
  end.
Proof. destruct c; reflexivity. Qed.

Lemma bind_lift_outcome {A B} (m : M A) (f : A -> Result B) net :
  outcome (bind m (fun a => lift (f a)) net) =
  match outcome (m net) with
  | Return a => f a
  | Throw e => Throw e
  end.
Proof.
  unfold bind, lift, outcome. destruct (m net) as [evs [a|e]]; reflexivity.
Qed.

Lemma bind_lift_events {A B} (m : M A) (f : A -> Result B) net :
  events (bind m (fun a => lift (f a)) net) = events (m net).
Proof.
  unfold bind, lift, events. destruct (m net) as [evs [a|e]]; cbn; auto.
  apply app_nil_r.
Qed.

Lemma call_events this c net :
  constructed this ->
  requests (events (call this c net)) = [call_request this c].
Proof.
  intros C. rewrite call_unfold. unfold call_request.
  destruct c; try apply (rweh_run _ _ _ _ C).
  rewrite bind_lift_events. apply (rweh_run _ _ _ _ C).
Qed.

Lemma call_outcome this c net :
  constructed this ->
  outcome (call this c net) =
  match c with
  | GetUploadServer =>
      match surfaced (net (call_request this c)) with
      | Return d => get_prop d "result"
      | Throw e => Throw e
      end
  | _ => surfaced (net (call_request this c))
  end.
Proof.
  intros C. rewrite call_unfold. unfold call_request.
  destruct c; try apply (rweh_run _ _ _ _ C).
  rewrite bind_lift_outcome, (proj1 (rweh_run _ _ _ _ C)). reflexivity.
Qed.

(** A failure surfaces the same way from every method. *)
Lemma call_failure this c net e :
  constructed this ->
  surfaced (net (call_request this c)) = Throw e ->
  outcome (call this c net) = Throw e.
Proof.
  intros C H. rewrite (call_outcome _ _ _ C).
  destruct c; rewrite H; reflexivity.
Qed.

(** ** The classification, taken alone *)

(** The interceptor's error handler is [classify]. *)
Lemma response_rejected_classify lg error net :
  outcome (response_rejected lg error net) = Throw (classify error).
Proof.
  unfold response_rejected, classify.
  destruct (error_response error) as [[st tx d]|]; cbn.
  - destruct d; try reflexivity.
    cbn. unfold throw_new_VOEError. destruct (convertible _); reflexivity.
  - destruct (error_request error); reflexivity.
Qed.

(** The [catch] block of [requestWithErrorHandling] is [classify]. *)
Lemma catch_block_classify this error net :
  outcome (requestWithErrorHandling this (throw error) net)
  = Throw (classify error).
Proof.
  unfold requestWithErrorHandling, classify, try_catch, then_, bind; cbn.
  destruct (error_response error) as [[st tx d]|]; cbn.
  - destruct d; try reflexivity.
    cbn. unfold throw_new_VOEError. destruct (convertible _); reflexivity.
  - destruct (error_request error); reflexivity.
Qed.

(** On a JSON-endpoint call the two copies run one after the other: the
    interceptor classifies the transport's error and the [catch] block
    classifies what the interceptor threw. *)
Lemma surfaced_classify_twice req reply :
  surfaced reply =
  match settle req reply with
  | Return r => Return (data r)
  | Throw e => Throw (classify (classify e))
  end.
Proof.
  destruct reply as [[st tx d] | why | why]; cbn; auto.
  destruct (validateStatus st); cbn; auto.
  destruct d; try reflexivity.
  cbn. destruct (convertible _) eqn:E; cbn; rewrite ?E; reflexivity.
Qed.

Lemma example_client_constructed : constructed example_client.
Proof. exists (Some "k"), None, connection_drop. reflexivity. Qed.

Ltac by_construction :=
  exists (Some "k"%string), None, connection_drop; reflexivity.

Lemma error_status_rejected s : 400 <= s -> validateStatus s = false.
Proof. unfold validateStatus. lia. Qed.

(** ** The direct upload *)

Lemma uploadFile_run this uploadServer file net :
  outcome (uploadFile this uploadServer file net) =
    match settle (upload_request uploadServer file)
                 (net (upload_request uploadServer file)) with
    | Return r => Return (data r)
    | Throw e => Throw e
    end /\
  requests (events (uploadFile this uploadServer file net))
  = [upload_request uploadServer file].
Proof.
  unfold uploadFile, axios_post, axios_request, try_catch, then_, bind,
    dispatchRequest, upload_request; cbn.
  destruct (settle _ _) as [r|e]; cbn; auto.
Qed.

(** Whatever makes [uploadFile] fail, the caller receives the transport's own
    error, the one [settle] produced, and never a [VOEError]. *)
Lemma uploadFile_failure_is_raw this uploadServer file net :
  match outcome (uploadFile this uploadServer file net) with
  | Return _ => True
  | Throw e =>
      is_VOEError e = false /\
      settle (upload_request uploadServer file)
             (net (upload_request uploadServer file)) = Throw e
  end.
Proof.
  rewrite (proj1 (uploadFile_run this uploadServer file net)).
  destruct (net _) as [r | why | why]; cbn; auto.
  destruct (validateStatus (status r)); cbn; auto.
Qed.

(** C1: [uploadFile] against an upload server that answers 500 with the body
    [{"message": "boom"}] throws the HTTP library's error as it is (message
    "Request failed with status code 500"), not a [VOEError] classified
    [API_ERROR] with message "boom" as the same reply gives on a
    JSON-endpoint call. *)
Theorem uploadFile_error_unclassified :
  let net := reply_with 500 "Internal Server Error"
               (VObj [("message", VStr "boom")]) in
  let r := {| status := 500; statusText := "Internal Server Error";
              data := VObj [("message", VStr "boom")] |} in
  outcome (uploadFile example_client "https://up.example/x" example_file net)
  = Throw (ThrownAxios
      {| ae_message := "Request failed with status code 500";
         ae_request := Some (upload_request "https://up.example/x" example_file);
         ae_response := Some r |})
  /\ outcome (call example_client GetAccountInfo net)
     = Throw (ThrownVOE {| message := "boom"; name := "VOEAPIError";
                           code := "API_ERROR"; response := Some r |}).
Proof. split; reflexivity. Qed.

(** ** The constructor's key check *)

(** C2: constructing the client with an absent or empty API key throws the
    [VOEError] "API key is required" classified [MISSING_API_KEY] with no
    effect at all before it (no request, no log line); with any non-empty key
    construction returns a client holding that key, again without issuing a
    request. *)
Theorem VOE_new_key_check (key : option string) (lg : option Logger)
    (net : Network) :
  match key with
  | None | Some EmptyString =>
      VOE_new key lg net =
      ([], Throw (ThrownVOE {| message := "API key is required";
                               name := "VOEAPIError";
                               code := "MISSING_API_KEY";
                               response := None |}))
  | Some k =>
      exists this,
        VOE_new key lg net = ([], Return this) /\ apiKey this = k /\
        constructed this
  end.
Proof.
  destruct key as [[|a k]|]; try reflexivity.
  unfold VOE_new; cbn. eexists. split; [reflexivity|]. split; [reflexivity|].
  exists (Some (String a k)), lg, net. reflexivity.
Qed.

(** ** The key on every JSON-endpoint request *)

Lemma assign_other_head k v rest k1 v1 :
  (k1 =? k)%string = false ->
  assign ((k, v) :: rest) k1 v1 = (k, v) :: assign rest k1 v1.
Proof.
  intros H. cbn. rewrite String.eqb_sym in H. now rewrite H.
Qed.

(** Merging parameters that have no property [k] leaves a leading [k]
    where it is. *)
Lemma merge_keeps_head o : forall k v rest,
  lookup o k = None ->
  exists rest', merge ((k, v) :: rest) o = (k, v) :: rest'.
Proof.
  unfold merge. induction o as [|[k1 v1] o IH]; intros k v rest H; cbn.
  - eauto.
  - cbn in H. destruct (k1 =? k)%string eqn:E; [discriminate H|].
    rewrite String.eqb_sym in E. rewrite E. apply IH, H.
Qed.

Lemma lookup_none_not_in o k :
  lookup o k = None <-> ~ In k (map fst o).
Proof.
  induction o as [|[k1 v1] o IH]; cbn.
  - tauto.
  - destruct (String.eqb_spec k1 k) as [->|Hne].
    + split; [discriminate|]. intros H. exfalso. apply H. now left.
    + rewrite IH. split.
      * intros H [->|Hin]; [now apply Hne | now apply H].
      * intros H Hin. apply H. now right.
Qed.

Lemma assign_fresh acc k v :
  lookup acc k = None -> assign acc k v = (acc ++ [(k, v)])%list.
Proof.
  induction acc as [|[k1 v1] acc IH]; cbn; [reflexivity|].
  destruct (k1 =? k)%string; [discriminate|]. intros H. now rewrite IH.
Qed.

Lemma lookup_app_fresh acc k1 v1 x :
  lookup acc x = None -> k1 <> x ->
  lookup (acc ++ [(k1, v1)])%list x = None.
Proof.
  induction acc as [|[k2 v2] acc IH]; cbn.
  - intros _ Hne. destruct (String.eqb_spec k1 x); [contradiction|reflexivity].
  - destruct (k2 =? x)%string; [discriminate|]. exact IH.
Qed.

(** Merging parameters with distinct names, none of them among the
    defaults, appends them in their order. *)
Lemma merge_fresh o : forall acc,
  NoDup (map fst o) ->
  (forall x, In x (map fst o) -> lookup acc x = None) ->
  merge acc o = (acc ++ o)%list.
Proof.
  unfold merge. induction o as [|[k1 v1] o IH]; intros acc Hnd Hfresh; cbn.
  - now rewrite app_nil_r.
  - cbn in Hnd. inversion Hnd as [|? ? Hnotin Hnd']; subst.
    rewrite (assign_fresh acc k1 v1) by (apply Hfresh; now left).
    rewrite IH.
    + now rewrite <- app_assoc.
    + exact Hnd'.
    + intros x Hx. apply lookup_app_fresh.
      * apply Hfresh. now right.
      * intros ->. contradiction.
Qed.

Lemma listFiles_params this (o : Object) :
  constructed this ->
  params (call_request this (ListFiles (Some o)))
  = merge [("key", VStr (apiKey this))] o.
Proof.
  intros C. destruct (constructed_inv _ C) as (k & lg & Hk & ->). reflexivity.
Qed.

Lemma call_request_key this c :
  constructed this ->
  overrides_key c = false ->
  lookup (query (call_request this c)) "key" = Some (VStr (apiKey this)).
Proof.
  intros C Hc.
  destruct c as [ | | | u | [id|] | fc fo | fcs | [o|] | fc t | fc fo | fc ];
    try (destruct (constructed_inv _ C) as (k & lg & Hk & ->); reflexivity).
  cbn in Hc. destruct (lookup o "key") eqn:E; [discriminate Hc|].
  unfold query. rewrite (listFiles_params this o C).
  destruct (merge_keeps_head o "key" (VStr (apiKey this)) [] E) as (rest & ->).
  reflexivity.
Qed.

(** C3, as stated, at a [listFiles] call whose options hold a property named
    [key]: the options are handed on as the request's parameters, so
    [listFiles({page: 1, key: "other"})] sends [key=other] instead of the
    configured key, and [listFiles({key: undefined})] sends no key at all. *)
Lemma listFiles_key_override_counterexample :
  constructed example_client /\
  (exists req,
     requests (events (call example_client
                         (ListFiles (Some [("page", VNum 1);
                                           ("key", VStr "other")]))
                         connection_drop)) = [req] /\
     lookup (query req) "key" = Some (VStr "other") /\
     lookup (query req) "key" <> Some (VStr (apiKey example_client))) /\
  (exists req,
     requests (events (call example_client
                         (ListFiles (Some [("key", VUndefined)]))
                         connection_drop)) = [req] /\
     lookup (query req) "key" = None).
Proof.
  split; [by_construction|]. split.
  - eexists. split; [reflexivity|]. split; [reflexivity|]. discriminate.
  - eexists. split; reflexivity.
Qed.

(** C3, amended: on a constructed client the key is not empty, and every
    JSON-endpoint method, whatever its arguments, hands exactly one request
    to the transport, whose query carries [key] with the configured API
    key, as long as the options object given to [listFiles] has no property
    named [key]. *)
Theorem json_request_carries_key this c net :
  constructed this ->
  overrides_key c = false ->
  apiKey this <> ""%string /\
  exists req,
    requests (events (call this c net)) = [req] /\
    lookup (query req) "key" = Some (VStr (apiKey this)).
Proof.
  intros C Hc. split.
  - destruct (constructed_inv _ C) as (k & lg & Hk & ->). exact Hk.
  - exists (call_request this c). split.
    + apply call_events, C.
    + apply call_request_key; [exact C | exact Hc].
Qed.

Lemma json_request_carries_key_witness :
  let c := ListFiles (Some [("per_page", VNum 5); ("name", VStr "holiday");
                            ("page", VUndefined)]) in
  constructed example_client /\
  overrides_key c = false /\
  (apiKey example_client <> ""%string /\
   exists req,
     requests (events (call example_client c connection_drop)) = [req] /\
     lookup (query req) "key" = Some (VStr (apiKey example_client))).
Proof.
  cbv zeta. split; [by_construction|]. split; [reflexivity|].
  apply (json_request_carries_key example_client); [by_construction|reflexivity].
Defined.

(** ** Upstream error replies *)

Lemma convertible_or_else m :
  convertible m = true ->
  convertible (or_else m (VStr API_REQUEST_FAILED)) = true.
Proof. intros H. unfold or_else. now destruct (truthy m). Qed.

Lemma surfaced_api_error r m :
  validateStatus (status r) = false ->
  get_prop (data r) "message" = Return m ->
  convertible m = true ->
  surfaced (Responds r) =
  Throw (ThrownVOE (new_VOEError (or_else m (VStr API_REQUEST_FAILED))
                      "API_ERROR" (Some r))).
Proof.
  intros Hs Hm Hc. cbn. rewrite Hs, Hm. now rewrite (convertible_or_else m Hc).
Qed.

Lemma get_prop_field fields prop v :
  lookup fields prop = Some v -> get_prop (VObj fields) prop = Return v.
Proof. intros H. cbn. now rewrite H. Qed.

Lemma get_prop_no_field fields prop :
  lookup fields prop = None -> get_prop (VObj fields) prop = Return VUndefined.
Proof. intros H. cbn. now rewrite H. Qed.

Lemma nonempty_truthy X : X <> ""%string -> truthy (VStr X) = true.
Proof.
  intros H. cbn. destruct (String.eqb_spec X ""); [contradiction|reflexivity].
Qed.

(** C4, as stated, at the message [""]: the reply 400 with body
    [{"message": ""}] satisfies the claim's premises, yet the failure's
    message is "API request failed" and not the body's message. *)
Lemma api_error_empty_message_counterexample :
  let r := {| status := 400; statusText := "Bad Request";
              data := VObj [("message", VStr "")] |} in
  let net := reply_with 400 "Bad Request" (VObj [("message", VStr "")]) in
  constructed example_client /\
  net (call_request example_client GetAccountInfo) = Responds r /\
  400 <= status r /\
  lookup [("message", VStr "")] "message" = Some (VStr "") /\
  ~ (exists e, outcome (call example_client GetAccountInfo net)
               = Throw (ThrownVOE e) /\ message e = ""%string).
Proof.
  cbv zeta. split; [by_construction|].
  split; [reflexivity|]. split; [simpl; lia|]. split; [reflexivity|].
  intros (e & He & Hm). vm_compute in He. injection He as <-. discriminate Hm.
Qed.

(** C4, amended: on a JSON-endpoint call answered with a status of 400 or
    more, a body whose [message] field is a non-empty string [X] gives the
    failure [API_ERROR] with message exactly [X] and the reply attached; a
    body object without [message] field gives [API_ERROR] with the message
    "API request failed" and the reply attached. *)
Theorem api_error_message this c net r fields :
  constructed this ->
  net (call_request this c) = Responds r ->
  400 <= status r ->
  data r = VObj fields ->
  (forall X, lookup fields "message" = Some (VStr X) -> X <> ""%string ->
     outcome (call this c net) =
     Throw (ThrownVOE {| message := X; name := "VOEAPIError";
                         code := "API_ERROR"; response := Some r |})) /\
  (lookup fields "message" = None ->
     outcome (call this c net) =
     Throw (ThrownVOE {| message := "API request failed"; name := "VOEAPIError";
                         code := "API_ERROR"; response := Some r |})).
Proof.
  intros C Hnet Hst Hd. apply error_status_rejected in Hst. split.
  - intros X HX Hne. apply (call_failure _ _ _ _ C). rewrite Hnet.
    rewrite (surfaced_api_error r (VStr X) Hst).
    + unfold or_else. now rewrite (nonempty_truthy X Hne).
    + rewrite Hd. now apply get_prop_field.
    + reflexivity.
  - intros HN. apply (call_failure _ _ _ _ C). rewrite Hnet.
    rewrite (surfaced_api_error r VUndefined Hst); [reflexivity | | reflexivity].
    rewrite Hd. now apply get_prop_no_field.
Qed.

Lemma api_error_message_witness :
  let r := {| status := 404; statusText := "Not Found";
              data := VObj [("message", VStr "No such file")] |} in
  let net := reply_with 404 "Not Found"
               (VObj [("message", VStr "No such file")]) in
  constructed example_client /\
  net (call_request example_client (DeleteFile "abc")) = Responds r /\
  400 <= status r /\
  data r = VObj [("message", VStr "No such file")] /\
  ((forall X, lookup [("message", VStr "No such file")] "message"
              = Some (VStr X) -> X <> ""%string ->
      outcome (call example_client (DeleteFile "abc") net) =
      Throw (ThrownVOE {| message := X; name := "VOEAPIError";
                          code := "API_ERROR"; response := Some r |})) /\
   (lookup [("message", VStr "No such file")] "message" = None ->
      outcome (call example_client (DeleteFile "abc") net) =
      Throw (ThrownVOE {| message := "API request failed";
                          name := "VOEAPIError";
                          code := "API_ERROR"; response := Some r |}))).
Proof.
  cbv zeta. split; [by_construction|].
  split; [reflexivity|]. split; [simpl; lia|]. split; [reflexivity|].
  apply (api_error_message example_client (DeleteFile "abc")
           (reply_with 404 "Not Found" (VObj [("message", VStr "No such file")])));
    [by_construction | reflexivity | simpl; lia | reflexivity].
Defined.

(** C9: a [message] field holding the empty string is replaced by
    "API request failed": in the interceptor's error handler, in the [catch]
    block of [requestWithErrorHandling], and so in the failure a
    JSON-endpoint call surfaces for an error reply. *)
Theorem empty_message_falls_back r fields :
  data r = VObj fields ->
  lookup fields "message" = Some (VStr "") ->
  let failure :=
    ThrownVOE {| message := "API request failed"; name := "VOEAPIError";
                 code := "API_ERROR"; response := Some r |} in
  (forall lg error net,
     error_response error = Some r ->
     outcome (response_rejected lg error net) = Throw failure) /\
  (forall this error net,
     error_response error = Some r ->
     outcome (requestWithErrorHandling this (throw error) net) = Throw failure) /\
  (forall this c net,
     constructed this ->
     net (call_request this c) = Responds r ->
     validateStatus (status r) = false ->
     outcome (call this c net) = Throw failure).
Proof.
  intros Hd Hm failure.
  assert (Hc : forall error, error_response error = Some r ->
                             classify error = failure).
  { intros error He. unfold classify. rewrite He, Hd.
    rewrite (get_prop_field _ _ _ Hm). reflexivity. }
  repeat split.
  - intros lg error net He. rewrite response_rejected_classify. now rewrite Hc.
  - intros this error net He. rewrite catch_block_classify. now rewrite Hc.
  - intros this c net C Hnet Hs. apply (call_failure _ _ _ _ C). rewrite Hnet.
    rewrite (surfaced_api_error r (VStr "") Hs); [reflexivity | | reflexivity].
    rewrite Hd. now apply get_prop_field.
Qed.

Lemma empty_message_falls_back_witness :
  let r := {| status := 403; statusText := "Forbidden";
              data := VObj [("message", VStr "")] |} in
  data r = VObj [("message", VStr "")] /\
  lookup [("message", VStr "")] "message" = Some (VStr "") /\
  outcome (call example_client GetAccountStats
             (reply_with 403 "Forbidden" (VObj [("message", VStr "")])))
  = Throw (ThrownVOE {| message := "API request failed"; name := "VOEAPIError";
                        code := "API_ERROR"; response := Some r |}).
Proof.
  cbv zeta. split; [reflexivity|]. split; [reflexivity|].
  apply (empty_message_falls_back
           {| status := 403; statusText := "Forbidden";
              data := VObj [("message", VStr "")] |}
           [("message", VStr "")] eq_refl eq_refl);
    [by_construction | reflexivity | reflexivity].
Defined.

(** ** The order of the three rules *)

(** Each copy of the classification tests the response first, the request
    second: a caught error with a response is an API error (its message
    being one that converts to a string) whether or not it has a request; without a response it is a network error when it has a
    request and a request error otherwise. *)
Lemma classify_rules error :
  (forall r m, error_response error = Some r ->
     get_prop (data r) "message" = Return m ->
     convertible m = true ->
     classify error =
     ThrownVOE (new_VOEError (or_else m (VStr API_REQUEST_FAILED))
                  "API_ERROR" (Some r))) /\
  (error_response error = None -> error_request error = true ->
     classify error =
     ThrownVOE {| message := "Network error"; name := "VOEAPIError";
                  code := "NETWORK_ERROR"; response := None |}) /\
  (error_response error = None -> error_request error = false ->
     classify error =
     ThrownVOE {| message := error_message error; name := "VOEAPIError";
                  code := "REQUEST_ERROR"; response := None |}).
Proof.
  unfold classify. repeat split.
  - intros r m -> -> Hc. now rewrite (convertible_or_else m Hc).
  - intros -> ->. reflexivity.
  - intros -> ->. reflexivity.
Qed.

(** The error the interceptor throws for a lost connection has neither a
    response nor a request, so classifying it again gives a request error:
    classifying twice is not classifying once. *)
Lemma classify_twice_differs req why :
  let sent := ThrownAxios {| ae_message := why; ae_request := Some req;
                             ae_response := None |} in
  classify sent =
    ThrownVOE {| message := "Network error"; name := "VOEAPIError";
                 code := "NETWORK_ERROR"; response := None |} /\
  classify (classify sent) =
    ThrownVOE {| message := "Network error"; name := "VOEAPIError";
                 code := "REQUEST_ERROR"; response := None |}.
Proof. split; reflexivity. Qed.

(** C5: on every JSON-endpoint method of a constructed client, a request that
    was sent and got no response surfaces as a [VOEError] with the message
    "Network error" and no response, but classified [REQUEST_ERROR]: the
    interceptor's [NETWORK_ERROR] failure is caught and classified again by
    [requestWithErrorHandling]. *)
Theorem network_failure_surfaces_as_request_error this c net why :
  constructed this ->
  net (call_request this c) = NoResponse why ->
  outcome (call this c net) =
  Throw (ThrownVOE {| message := "Network error"; name := "VOEAPIError";
                      code := "REQUEST_ERROR"; response := None |}).
Proof.
  intros C Hnet. apply (call_failure _ _ _ _ C). now rewrite Hnet.
Qed.

Lemma network_failure_surfaces_as_request_error_witness :
  constructed example_client /\
  connection_drop (call_request example_client GetAccountInfo)
  = NoResponse "timeout of 1000ms exceeded" /\
  outcome (call example_client GetAccountInfo connection_drop) =
  Throw (ThrownVOE {| message := "Network error"; name := "VOEAPIError";
                      code := "REQUEST_ERROR"; response := None |}).
Proof.
  split; [by_construction|]. split; [reflexivity|].
  apply (network_failure_surfaces_as_request_error example_client
           GetAccountInfo connection_drop "timeout of 1000ms exceeded");
    [by_construction | reflexivity].
Defined.

(** A request that could not be sent surfaces as [REQUEST_ERROR] with the
    fault's own message. *)
Lemma unsent_request_surfaces_as_request_error this c net why :
  constructed this ->
  net (call_request this c) = CannotSend why ->
  outcome (call this c net) =
  Throw (ThrownVOE {| message := why; name := "VOEAPIError";
                      code := "REQUEST_ERROR"; response := None |}).
Proof.
  intros C Hnet. apply (call_failure _ _ _ _ C). now rewrite Hnet.
Qed.

(** ** Results *)

(** C6: when the upstream answers [getUploadServer] with a 2xx reply whose
    body has the field [result] holding the string [s], the method returns
    the string [s]. *)
Theorem getUploadServer_unwraps_result this net r fields s :
  constructed this ->
  net (call_request this GetUploadServer) = Responds r ->
  validateStatus (status r) = true ->
  data r = VObj fields ->
  lookup fields "result" = Some (VStr s) ->
  outcome (getUploadServer this net) = Return (VStr s).
Proof.
  intros C Hnet Hs Hd Hr.
  change (getUploadServer this) with (call this GetUploadServer).
  rewrite (call_outcome _ _ _ C), Hnet. cbn. rewrite Hs, Hd.
  now apply get_prop_field.
Qed.

Lemma getUploadServer_unwraps_result_witness :
  let r := {| status := 200; statusText := "OK";
              data := VObj [("result", VStr "https://up.example/x")] |} in
  let net := reply_with 200 "OK"
               (VObj [("result", VStr "https://up.example/x")]) in
  constructed example_client /\
  net (call_request example_client GetUploadServer) = Responds r /\
  validateStatus (status r) = true /\
  data r = VObj [("result", VStr "https://up.example/x")] /\
  lookup [("result", VStr "https://up.example/x")] "result"
  = Some (VStr "https://up.example/x") /\
  outcome (getUploadServer example_client net)
  = Return (VStr "https://up.example/x").
Proof.
  cbv zeta. split; [by_construction|].
  split; [reflexivity|]. split; [reflexivity|]. split; [reflexivity|].
  split; [reflexivity|].
  apply (getUploadServer_unwraps_result example_client
           (reply_with 200 "OK" (VObj [("result", VStr "https://up.example/x")]))
           {| status := 200; statusText := "OK";
              data := VObj [("result", VStr "https://up.example/x")] |}
           [("result", VStr "https://up.example/x")] "https://up.example/x");
    [by_construction | reflexivity | reflexivity | reflexivity | reflexivity].
Defined.

(** C7: [uploadFile(s, b)] hands exactly one request to the transport: a POST
    whose URL is [s], with no base URL and no query parameter (so no API
    key), the header [Content-Type: multipart/form-data] and a form body
    whose one field [file] holds [b]; when the reply is a 2xx one, the method
    returns its body unchanged. *)
Theorem uploadFile_posts_to_server this s b net :
  requests (events (uploadFile this s b net)) =
    [{| method := POST;
        req_baseURL := None;
        url := s;
        params := [];
        headers := [("Content-Type", "multipart/form-data")];
        body := Some [("file", b)] |}] /\
  forall r,
    net (upload_request s b) = Responds r ->
    validateStatus (status r) = true ->
    outcome (uploadFile this s b net) = Return (data r).
Proof.
  split.
  - apply uploadFile_run.
  - intros r Hnet Hs. rewrite (proj1 (uploadFile_run this s b net)), Hnet.
    cbn. now rewrite Hs.
Qed.

Lemma uploadFile_posts_to_server_witness :
  let d := VObj [("file_code", VStr "abc123")] in
  reply_with 200 "OK" d (upload_request "https://up.example/x" example_file)
  = Responds {| status := 200; statusText := "OK"; data := d |} /\
  validateStatus 200 = true /\
  outcome (uploadFile example_client "https://up.example/x" example_file
             (reply_with 200 "OK" d)) = Return d.
Proof.
  cbv zeta. split; [reflexivity|]. split; [reflexivity|].
  apply (proj2 (uploadFile_posts_to_server example_client
                  "https://up.example/x" example_file
                  (reply_with 200 "OK" (VObj [("file_code", VStr "abc123")])))
           {| status := 200; statusText := "OK";
              data := VObj [("file_code", VStr "abc123")] |});
    reflexivity.
Defined.

(** ** Filters of [listFiles] *)

Lemma options_object_names o :
  NoDup (map fst (options_object o)) /\ lookup (options_object o) "key" = None /\
  scalar_options (options_object o) = true /\
  filter (fun kv => negb (is_nullish (snd kv))) (options_object o)
  = options_object o.
Proof.
  destruct o as [[p|] [pp|] [f|] [cr|] [n|]]; cbn;
    (split; [repeat constructor; cbn; intuition discriminate|]);
    repeat split.
Qed.

Lemma listFiles_query this (o : Object) :
  constructed this ->
  NoDup (map fst o) ->
  lookup o "key" = None ->
  query (call_request this (ListFiles (Some o)))
  = ("key", VStr (apiKey this))
    :: filter (fun kv => negb (is_nullish (snd kv))) o.
Proof.
  intros C Hnd Hkey.
  unfold query. rewrite (listFiles_params this o C).
  rewrite (merge_fresh o [("key", VStr (apiKey this))] Hnd).
  - reflexivity.
  - intros x Hx. unfold lookup.
    destruct (String.eqb_spec "key" x) as [<-|]; [|reflexivity].
    exfalso. now apply (proj1 (lookup_none_not_in o "key") Hkey).
Qed.

(** C8: [listFiles({})] sends a query holding the key and no filter;
    [listFiles({page: 2, per_page: 5})] sends the key, [page=2] and
    [per_page=5] and nothing else; in general the query holds, after the
    key, exactly the filters that are present, each with its value.  This
    holds for the declared filters and, more widely, for every options
    object of distinct scalar properties, none named [key], in whatever
    order the caller wrote them: those given as [null] or [undefined] are
    left out like the absent ones. *)
Theorem listFiles_filters this net :
  constructed this ->
  (exists req,
     requests (events (listFiles this (Some []) net)) = [req] /\
     query req = [("key", VStr (apiKey this))]) /\
  (exists req,
     requests (events (listFiles this
                         (Some [("page", VNum 2); ("per_page", VNum 5)])
                         net)) = [req] /\
     query req = [("key", VStr (apiKey this));
                  ("page", VNum 2); ("per_page", VNum 5)]) /\
  (forall o : ListFilesOptions, exists req,
     requests (events (listFiles this (Some (options_object o)) net)) = [req] /\
     query req = ("key", VStr (apiKey this)) :: options_object o /\
     lookup (options_object o) "page" = option_map VNum (page o) /\
     lookup (options_object o) "per_page" = option_map VNum (per_page o) /\
     lookup (options_object o) "fld_id" = option_map VNum (fld_id o) /\
     lookup (options_object o) "created" = option_map VStr (created o) /\
     lookup (options_object o) "name" = option_map VStr (name_filter o)) /\
  (forall o : Object,
     NoDup (map fst o) -> lookup o "key" = None -> scalar_options o = true ->
     exists req,
       requests (events (listFiles this (Some o) net)) = [req] /\
       query req = ("key", VStr (apiKey this))
                   :: filter (fun kv => negb (is_nullish (snd kv))) o).
Proof.
  intros C.
  assert (H : forall o : Object,
             NoDup (map fst o) -> lookup o "key" = None ->
             exists req,
               requests (events (listFiles this (Some o) net)) = [req] /\
               query req = ("key", VStr (apiKey this))
                           :: filter (fun kv => negb (is_nullish (snd kv))) o).
  { intros o Hnd Hkey. exists (call_request this (ListFiles (Some o))). split.
    - apply (call_events this (ListFiles (Some o)) net C).
    - now apply listFiles_query. }
  split; [apply (H []); [constructor | reflexivity]|].
  split; [apply (H [("page", VNum 2); ("per_page", VNum 5)]);
          [repeat constructor; cbn; intuition discriminate | reflexivity]|].
  split.
  - intros o. destruct (options_object_names o) as (Hnd & Hkey & _ & Hf).
    destruct (H (options_object o) Hnd Hkey) as (req & Hr & Hq).
    rewrite Hf in Hq. exists req.
    split; [exact Hr|]. split; [exact Hq|].
    destruct o as [[p|] [pp|] [f|] [cr|] [n|]]; repeat split; reflexivity.
  - intros o Hnd Hkey _. now apply H.
Qed.

Lemma listFiles_filters_witness :
  let o := [("name", VStr "holiday"); ("page", VUndefined);
            ("per_page", VNum 5)] in
  constructed example_client /\
  NoDup (map fst o) /\ lookup o "key" = None /\ scalar_options o = true /\
  (exists req,
     requests (events (listFiles example_client (Some [])
                         connection_drop)) = [req] /\
     query req = [("key", VStr (apiKey example_client))]) /\
  (exists req,
     requests (events (listFiles example_client (Some o) connection_drop))
     = [req] /\
     query req = [("key", VStr (apiKey example_client));
                  ("name", VStr "holiday"); ("per_page", VNum 5)]).
Proof.
  cbv zeta.
  assert (Hnd : NoDup (map fst [("name", VStr "holiday"); ("page", VUndefined);
                                ("per_page", VNum 5)])).
  { repeat constructor; cbn; intuition discriminate. }
  split; [by_construction|]. split; [exact Hnd|].
  split; [reflexivity|]. split; [reflexivity|].
  destruct (listFiles_filters example_client connection_drop
              ltac:(by_construction)) as (H1 & _ & _ & H4).
  split; [exact H1|].
  exact (H4 [("name", VStr "holiday"); ("page", VUndefined);
             ("per_page", VNum 5)] Hnd eq_refl eq_refl).
Defined.

(** ** Error replies without a usable body *)

Lemma classify_nullish_body error r :
  error_response error = Some r ->
  is_nullish (data r) = true ->
  exists msg, classify error = ThrownTypeError msg.
Proof.
  intros He Hn. unfold classify. rewrite He.
  destruct (data r); try discriminate Hn; cbn; eauto.
Qed.

Lemma classify_other_body error r :
  error_response error = Some r ->
  is_nullish (data r) = false ->
  printable_message (data r) = true ->
  exists e, classify error = ThrownVOE e /\
            code e = "API_ERROR"%string /\ response e = Some r.
Proof.
  intros He Hn Hp. unfold classify. rewrite He.
  unfold printable_message in Hp.
  destruct (get_prop (data r) "message") as [m|f] eqn:E.
  - rewrite (convertible_or_else m Hp). eauto.
  - destruct (data r); try discriminate Hn; discriminate E.
Qed.

Lemma classify_unprintable_message error r :
  error_response error = Some r ->
  printable_message (data r) = false ->
  classify error = ThrownTypeError CANNOT_CONVERT.
Proof.
  intros He Hp. unfold classify. rewrite He.
  unfold printable_message in Hp.
  destruct (get_prop (data r) "message") as [m|f]; [|discriminate Hp].
  unfold or_else. destruct (truthy m) eqn:T.
  - now rewrite Hp.
  - destruct m; try discriminate Hp; discriminate T.
Qed.

(** C10, as stated, at a body that is not an object: for the reply 502 whose
    body is the string ["<html>Bad Gateway</html>"], neither copy of the
    classification faults; each throws the [API_ERROR] failure with the
    fallback message and the reply attached, and so does the call. *)
Lemma string_body_counterexample :
  let r := {| status := 502; statusText := "Bad Gateway";
              data := VStr "<html>Bad Gateway</html>" |} in
  let net := reply_with 502 "Bad Gateway" (VStr "<html>Bad Gateway</html>") in
  let error := ThrownAxios
                 {| ae_message := "Request failed with status code 502";
                    ae_request := Some (call_request example_client GetAccountInfo);
                    ae_response := Some r |} in
  let failure := ThrownVOE {| message := "API request failed";
                              name := "VOEAPIError";
                              code := "API_ERROR"; response := Some r |} in
  is_object (data r) = false /\
  outcome (response_rejected DefaultLogger error net) = Throw failure /\
  outcome (requestWithErrorHandling example_client (throw error) net)
  = Throw failure /\
  outcome (call example_client GetAccountInfo net) = Throw failure.
Proof. repeat split. Qed.

(** A message that does not convert: for the reply 500 with body
    [{"message": {"toString": 1}}] the read succeeds, and each copy of the
    classification throws the TypeError of the conversion; the call
    surfaces it as [REQUEST_ERROR]. *)
Lemma unprintable_message_example :
  let d := VObj [("message", VObj [("toString", VNum 1)])] in
  let r := {| status := 500; statusText := "Internal Server Error";
              data := d |} in
  let net := reply_with 500 "Internal Server Error" d in
  let error := ThrownAxios
                 {| ae_message := "Request failed with status code 500";
                    ae_request := Some (call_request example_client GetAccountInfo);
                    ae_response := Some r |} in
  is_nullish (data r) = false /\
  printable_message (data r) = false /\
  outcome (response_rejected DefaultLogger error net)
  = Throw (ThrownTypeError "Cannot convert object to primitive value") /\
  outcome (requestWithErrorHandling example_client (throw error) net)
  = Throw (ThrownTypeError "Cannot convert object to primitive value") /\
  outcome (call example_client GetAccountInfo net)
  = Throw (ThrownVOE {| message := "Cannot convert object to primitive value";
                        name := "VOEAPIError";
                        code := "REQUEST_ERROR"; response := None |}).
Proof. repeat split. Qed.

(** C10, amended: the [API_ERROR] branch reads [message] off the error
    reply's body unguarded, and the read faults exactly when the body is
    [null] or [undefined].  Then each copy of the classification throws the
    TypeError of the read instead of a [VOEError], and on a JSON-endpoint
    call, where the interceptor's fault is caught by
    [requestWithErrorHandling], the caller receives a [VOEError] classified
    [REQUEST_ERROR] without response.  For every other body, the primitive
    ones included, the read gives the message or [undefined], and each copy
    throws the [API_ERROR] failure with the reply attached provided that
    value converts to a string; when it does not (an object with a property
    named [toString], or an array holding one), each copy throws the
    TypeError of the conversion. *)
Theorem api_branch_faults_on_nullish_body_only r :
  (is_nullish (data r) = true ->
     (forall lg this error net,
        error_response error = Some r ->
        exists msg,
          outcome (response_rejected lg error net)
          = Throw (ThrownTypeError msg) /\
          outcome (requestWithErrorHandling this (throw error) net)
          = Throw (ThrownTypeError msg)) /\
     (forall this c net,
        constructed this ->
        net (call_request this c) = Responds r ->
        validateStatus (status r) = false ->
        exists e,
          outcome (call this c net) = Throw (ThrownVOE e) /\
          code e = "REQUEST_ERROR"%string /\ response e = None)) /\
  (is_nullish (data r) = false ->
     printable_message (data r) = true ->
     forall lg this error net,
       error_response error = Some r ->
       exists e,
         outcome (response_rejected lg error net) = Throw (ThrownVOE e) /\
         outcome (requestWithErrorHandling this (throw error) net)
         = Throw (ThrownVOE e) /\
         code e = "API_ERROR"%string /\ response e = Some r) /\
  (is_nullish (data r) = false ->
     printable_message (data r) = false ->
     forall lg this error net,
       error_response error = Some r ->
       outcome (response_rejected lg error net)
       = Throw (ThrownTypeError CANNOT_CONVERT) /\
       outcome (requestWithErrorHandling this (throw error) net)
       = Throw (ThrownTypeError CANNOT_CONVERT)).
Proof.
  split; [|split].
  - intros Hn. split.
    + intros lg this error net He.
      destruct (classify_nullish_body error r He Hn) as (msg & Hc).
      exists msg. now rewrite response_rejected_classify, catch_block_classify, Hc.
    + intros this c net C Hnet Hs.
      assert (H : exists msg,
                 surfaced (Responds r) =
                 Throw (ThrownVOE (new_VOEError (VStr msg) "REQUEST_ERROR" None))).
      { cbn. rewrite Hs. destruct (data r); try discriminate Hn; cbn; eauto. }
      destruct H as (msg & H). eexists. split.
      * apply (call_failure _ _ _ _ C). rewrite Hnet. exact H.
      * split; reflexivity.
  - intros Hn Hp lg this error net He.
    destruct (classify_other_body error r He Hn Hp) as (e & Hc & Hcode & Hresp).
    exists e. now rewrite response_rejected_classify, catch_block_classify, Hc.
  - intros Hn Hp lg this error net He.
    rewrite response_rejected_classify, catch_block_classify.
    now rewrite (classify_unprintable_message error r He Hp).
Qed.

Lemma api_branch_faults_on_nullish_body_only_witness :
  let r := {| status := 502; statusText := "Bad Gateway"; data := VNull |} in
  let r' := {| status := 500; statusText := "Internal Server Error";
               data := VNum 7 |} in
  let caught x := ThrownAxios
                    {| ae_message := "Request failed";
                       ae_request := Some (call_request example_client GetAccountInfo);
                       ae_response := Some x |} in
  (is_nullish (data r) = true /\
   error_response (caught r) = Some r /\
   exists msg,
     outcome (response_rejected DefaultLogger (caught r) connection_drop)
     = Throw (ThrownTypeError msg) /\
     outcome (requestWithErrorHandling example_client (throw (caught r))
                connection_drop)
     = Throw (ThrownTypeError msg)) /\
  (is_nullish (data r') = false /\
   printable_message (data r') = true /\
   error_response (caught r') = Some r' /\
   exists e,
     outcome (response_rejected DefaultLogger (caught r') connection_drop)
     = Throw (ThrownVOE e) /\
     outcome (requestWithErrorHandling example_client (throw (caught r'))
                connection_drop)
     = Throw (ThrownVOE e) /\
     code e = "API_ERROR"%string /\ response e = Some r').
Proof.
  cbv zeta. split.
  - split; [reflexivity|]. split; [reflexivity|].
    apply (proj1 (proj1 (api_branch_faults_on_nullish_body_only
                           {| status := 502; statusText := "Bad Gateway";
                              data := VNull |}) eq_refl));
      reflexivity.
  - split; [reflexivity|]. split; [reflexivity|]. split; [reflexivity|].
    apply (proj1 (proj2 (api_branch_faults_on_nullish_body_only
                           {| status := 500;
                              statusText := "Internal Server Error";
                              data := VNum 7 |})) eq_refl eq_refl);
      reflexivity.
Defined.

(** * Further properties of the client *)

(** ** Traces of a JSON-endpoint call *)

Lemma call_events_wrapper this c net :
  events (call this c net) =
  events (requestWithErrorHandling this
            (axios_get (client this) (call_url c) (call_params c)) net).
Proof.
  rewrite call_unfold. destruct c; try reflexivity. apply bind_lift_events.
Qed.

Ltac run_pipeline :=
  unfold events, outcome, requestWithErrorHandling, axios_get, axios_request,
    try_catch, then_, bind, json_request; cbn; unfold settle.

Lemma wrapper_success_trace this u ps net r :
  constructed this ->
  net (json_request this u ps) = Responds r ->
  validateStatus (status r) = true ->
  requestWithErrorHandling this (axios_get (client this) u ps) net =
  ([EvLog (logger this) LInfo ("Request: GET " ++ u) None;
    EvRequest (json_request this u ps);
    EvLog (logger this) LInfo
          ("Response: " ++ number_to_string (status r) ++ " " ++ statusText r)
          None],
   Return (data r)).
Proof.
  intros C Hnet Hs. destruct (constructed_inv _ C) as (k & lg & Hk & ->).
  revert Hnet. run_pipeline. intros ->. rewrite Hs. reflexivity.
Qed.

Lemma wrapper_api_failure_trace this u ps net r :
  constructed this ->
  net (json_request this u ps) = Responds r ->
  validateStatus (status r) = false ->
  is_nullish (data r) = false ->
  printable_message (data r) = true ->
  events (requestWithErrorHandling this (axios_get (client this) u ps) net) =
  [EvLog (logger this) LInfo ("Request: GET " ++ u) None;
   EvRequest (json_request this u ps);
   EvLog (logger this) LError
         ("API Error: " ++ number_to_string (status r) ++ " " ++ statusText r)
         None;
   EvLog (logger this) LError
         ("API Error: " ++ number_to_string (status r) ++ " " ++ statusText r)
         (Some (MetaValue (data r)))].
Proof.
  intros C Hnet Hs Hn Hp. destruct (constructed_inv _ C) as (k & lg & Hk & ->).
  revert Hnet. run_pipeline. intros ->. rewrite Hs.
  destruct r as [st tx d]. cbn in Hn, Hp |- *.
  unfold printable_message in Hp.
  destruct (get_prop d "message") as [m|f] eqn:E.
  - cbn. unfold throw_new_VOEError.
    rewrite (convertible_or_else m Hp). cbn. rewrite E. cbn.
    rewrite (convertible_or_else m Hp). reflexivity.
  - destruct d; try discriminate Hn; discriminate E.
Qed.

Lemma wrapper_transport_failure_trace this u ps net :
  constructed this ->
  (forall why,
     net (json_request this u ps) = NoResponse why ->
     events (requestWithErrorHandling this (axios_get (client this) u ps) net) =
     [EvLog (logger this) LInfo ("Request: GET " ++ u) None;
      EvRequest (json_request this u ps);
      EvLog (logger this) LError "Network Error: No response received" None;
      EvLog (logger this) LError "Request Error: Network error" None]) /\
  (forall why,
     net (json_request this u ps) = CannotSend why ->
     events (requestWithErrorHandling this (axios_get (client this) u ps) net) =
     [EvLog (logger this) LInfo ("Request: GET " ++ u) None;
      EvRequest (json_request this u ps);
      EvLog (logger this) LError ("Request Error: " ++ why) None;
      EvLog (logger this) LError ("Request Error: " ++ why) None]).
Proof.
  intros C. destruct (constructed_inv _ C) as (k & lg & Hk & ->).
  split; intros why; run_pipeline; intros ->; reflexivity.
Qed.

(** X1: whatever the upstream does, a JSON-endpoint call of a constructed
    client never lets the HTTP library's own error through and never
    surfaces [NETWORK_ERROR]: a failure is a [VOEError] classified
    [API_ERROR] carrying the very reply the upstream gave, or a [VOEError]
    classified [REQUEST_ERROR] without response; the one other failure is
    the TypeError of [getUploadServer] reading [result]. *)
Theorem json_failure_shapes this c net :
  constructed this ->
  match outcome (call this c net) with
  | Return _ => True
  | Throw (ThrownVOE e) =>
      (code e = "API_ERROR"%string /\
       exists r, response e = Some r /\
                 net (call_request this c) = Responds r) \/
      (code e = "REQUEST_ERROR"%string /\ response e = None)
  | Throw (ThrownAxios _) => False
  | Throw (ThrownTypeError _) => c = GetUploadServer
  end.
Proof.
  intros C. rewrite (call_outcome _ _ _ C).
  assert (H : match surfaced (net (call_request this c)) with
              | Return _ => True
              | Throw (ThrownVOE e) =>
                  (code e = "API_ERROR"%string /\
                   exists r, response e = Some r /\
                             net (call_request this c) = Responds r) \/
                  (code e = "REQUEST_ERROR"%string /\ response e = None)
              | Throw _ => False
              end).
  { destruct (net (call_request this c)) as [[st tx d] | why | why]; cbn; auto.
    destruct (validateStatus st); cbn; auto.
    destruct d; cbn; eauto 6.
    destruct (convertible _); cbn; eauto 6. }
  destruct c;
    destruct (surfaced _) as [d | [e | e | m]]; cbn;
    try exact H; try contradiction.
  destruct d; cbn; auto.
Qed.

Lemma json_failure_shapes_witness :
  constructed example_client /\
  match outcome (call example_client (RenameFile "abc" "new title")
                   connection_drop) with
  | Return _ => True
  | Throw (ThrownVOE e) =>
      (code e = "API_ERROR"%string /\
       exists r, response e = Some r /\
                 connection_drop
                   (call_request example_client (RenameFile "abc" "new title"))
                 = Responds r) \/
      (code e = "REQUEST_ERROR"%string /\ response e = None)
  | Throw (ThrownAxios _) => False
  | Throw (ThrownTypeError _) => RenameFile "abc" "new title" = GetUploadServer
  end.
Proof.
  split; [by_construction|].
  apply (json_failure_shapes example_client (RenameFile "abc" "new title")
           connection_drop); by_construction.
Defined.

(** X2: when the upstream answers a JSON-endpoint call with a 2xx reply, the
    call's effects are exactly an info line "Request: GET <path>", the
    request, and an info line "Response: <status> <statusText>", all on the
    client's logger; every method but [getUploadServer] returns the reply's
    body unchanged. *)
Theorem json_success_trace this c net r :
  constructed this ->
  net (call_request this c) = Responds r ->
  validateStatus (status r) = true ->
  events (call this c net) =
    [EvLog (logger this) LInfo ("Request: GET " ++ call_url c) None;
     EvRequest (call_request this c);
     EvLog (logger this) LInfo
           ("Response: " ++ number_to_string (status r) ++ " " ++ statusText r)
           None] /\
  (c <> GetUploadServer -> outcome (call this c net) = Return (data r)).
Proof.
  intros C Hnet Hs. split.
  - rewrite call_events_wrapper.
    now rewrite (wrapper_success_trace this _ _ net r C Hnet Hs).
  - intros Hc. rewrite (call_outcome _ _ _ C), Hnet. cbn. rewrite Hs.
    destruct c; try reflexivity. contradiction.
Qed.

Lemma json_success_trace_witness :
  let d := VObj [("status", VNum 200); ("msg", VStr "OK")] in
  let r := {| status := 200; statusText := "OK"; data := d |} in
  constructed example_client /\
  reply_with 200 "OK" d (call_request example_client (DeleteFile "abc"))
  = Responds r /\
  validateStatus (status r) = true /\
  DeleteFile "abc" <> GetUploadServer /\
  events (call example_client (DeleteFile "abc") (reply_with 200 "OK" d)) =
    [EvLog DefaultLogger LInfo "Request: GET /file/delete" None;
     EvRequest (call_request example_client (DeleteFile "abc"));
     EvLog DefaultLogger LInfo "Response: 200 OK" None] /\
  outcome (call example_client (DeleteFile "abc") (reply_with 200 "OK" d))
  = Return d.
Proof.
  cbv zeta. split; [by_construction|]. split; [reflexivity|].
  split; [reflexivity|]. split; [discriminate|].
  destruct (json_success_trace example_client (DeleteFile "abc")
              (reply_with 200 "OK" (VObj [("status", VNum 200); ("msg", VStr "OK")]))
              {| status := 200; statusText := "OK";
                 data := VObj [("status", VNum 200); ("msg", VStr "OK")] |})
    as [He Ho]; [by_construction | reflexivity | reflexivity |].
  split; [exact He | apply Ho; discriminate].
Defined.

(** X3: an error reply (outside 2xx, body neither [null] nor [undefined],
    with a message that converts to a string) is logged twice at error level
    under the same line
    "API Error: <status> <statusText>": once by the interceptor, without
    attachment, and once more by [requestWithErrorHandling], with the reply's
    body attached. *)
Theorem api_failure_logged_twice this c net r :
  constructed this ->
  net (call_request this c) = Responds r ->
  validateStatus (status r) = false ->
  is_nullish (data r) = false ->
  printable_message (data r) = true ->
  events (call this c net) =
    [EvLog (logger this) LInfo ("Request: GET " ++ call_url c) None;
     EvRequest (call_request this c);
     EvLog (logger this) LError
           ("API Error: " ++ number_to_string (status r) ++ " " ++ statusText r)
           None;
     EvLog (logger this) LError
           ("API Error: " ++ number_to_string (status r) ++ " " ++ statusText r)
           (Some (MetaValue (data r)))].
Proof.
  intros C Hnet Hs Hn Hp. rewrite call_events_wrapper.
  apply (wrapper_api_failure_trace this _ _ net r C Hnet Hs Hn Hp).
Qed.

Lemma api_failure_logged_twice_witness :
  let d := VObj [("message", VStr "No such file")] in
  let r := {| status := 404; statusText := "Not Found"; data := d |} in
  constructed example_client /\
  reply_with 404 "Not Found" d (call_request example_client (GetFileInfo "abc"))
  = Responds r /\
  validateStatus (status r) = false /\
  is_nullish (data r) = false /\
  printable_message (data r) = true /\
  events (call example_client (GetFileInfo "abc") (reply_with 404 "Not Found" d)) =
    [EvLog DefaultLogger LInfo "Request: GET /file/info" None;
     EvRequest (call_request example_client (GetFileInfo "abc"));
     EvLog DefaultLogger LError "API Error: 404 Not Found" None;
     EvLog DefaultLogger LError "API Error: 404 Not Found" (Some (MetaValue d))].
Proof.
  cbv zeta. split; [by_construction|]. split; [reflexivity|].
  split; [reflexivity|]. split; [reflexivity|]. split; [reflexivity|].
  apply (api_failure_logged_twice example_client (GetFileInfo "abc")
           (reply_with 404 "Not Found" (VObj [("message", VStr "No such file")]))
           {| status := 404; statusText := "Not Found";
              data := VObj [("message", VStr "No such file")] |});
    [by_construction | reflexivity | reflexivity | reflexivity | reflexivity].
Defined.

(** X4: a transport failure is logged twice at error level as well.  For a
    request that got no response the interceptor logs
    "Network Error: No response received" and the wrapper then logs
    "Request Error: Network error"; for a request that could not be sent
    both log "Request Error: <the fault's message>". *)
Theorem transport_failure_trace this c net :
  constructed this ->
  (forall why,
     net (call_request this c) = NoResponse why ->
     events (call this c net) =
     [EvLog (logger this) LInfo ("Request: GET " ++ call_url c) None;
      EvRequest (call_request this c);
      EvLog (logger this) LError "Network Error: No response received" None;
      EvLog (logger this) LError "Request Error: Network error" None]) /\
  (forall why,
     net (call_request this c) = CannotSend why ->
     events (call this c net) =
     [EvLog (logger this) LInfo ("Request: GET " ++ call_url c) None;
      EvRequest (call_request this c);
      EvLog (logger this) LError ("Request Error: " ++ why) None;
      EvLog (logger this) LError ("Request Error: " ++ why) None]).
Proof.
  intros C. rewrite call_events_wrapper.
  apply (wrapper_transport_failure_trace this _ _ net C).
Qed.

Lemma transport_failure_trace_witness :
  constructed example_client /\
  connection_drop (call_request example_client GetAccountStats)
  = NoResponse "timeout of 1000ms exceeded" /\
  events (call example_client GetAccountStats connection_drop) =
    [EvLog DefaultLogger LInfo "Request: GET /account/stats" None;
     EvRequest (call_request example_client GetAccountStats);
     EvLog DefaultLogger LError "Network Error: No response received" None;
     EvLog DefaultLogger LError "Request Error: Network error" None].
Proof.
  split; [by_construction|]. split; [reflexivity|].
  apply (proj1 (transport_failure_trace example_client GetAccountStats
                  connection_drop ltac:(by_construction))
           "timeout of 1000ms exceeded").
  reflexivity.
Defined.

(** ** What each method sends *)

(** X5: every JSON-endpoint method of a constructed client sends a GET with
    the base URL "https://voe.sx/api", the method's own path, no header and
    no body, whatever the arguments. *)
Theorem json_request_shape this c net :
  constructed this ->
  exists req,
    requests (events (call this c net)) = [req] /\
    method req = GET /\
    req_baseURL req = Some "https://voe.sx/api"%string /\
    url req = call_url c /\
    headers req = [] /\
    body req = None.
Proof.
  intros C. exists (call_request this c). split; [apply call_events, C|].
  destruct (constructed_inv _ C) as (k & lg & Hk & ->).
  repeat split.
Qed.

Lemma json_request_shape_witness :
  constructed example_client /\
  exists req,
    requests (events (call example_client (MoveFile "abc" 12)
                        connection_drop)) = [req] /\
    method req = GET /\
    req_baseURL req = Some "https://voe.sx/api"%string /\
    url req = "/file/move"%string /\
    headers req = [] /\
    body req = None.
Proof.
  split; [by_construction|].
  apply (json_request_shape example_client (MoveFile "abc" 12) connection_drop).
  by_construction.
Defined.

Lemma method_query this c net q :
  constructed this ->
  query (call_request this c) = q ->
  exists req, requests (events (call this c net)) = [req] /\ query req = q.
Proof.
  intros C H. exists (call_request this c). split; [apply call_events, C|exact H].
Qed.

Ltac query_of C call_ :=
  apply (method_query _ call_ _ _ C);
  let k := fresh "k" in let lg := fresh "lg" in let Hk := fresh "Hk" in
  destruct (constructed_inv _ C) as (k & lg & Hk & ->); reflexivity.

(** X6: [getRemoteUploadList()] without identifier sends the key alone: the
    [id] parameter, [null] by default, is left out of the query; with an
    identifier [n] the query is the key and [id=n]. *)
Theorem remote_upload_list_query this net :
  constructed this ->
  (exists req,
     requests (events (getRemoteUploadList this None net)) = [req] /\
     query req = [("key", VStr (apiKey this))]) /\
  (forall n, exists req,
     requests (events (getRemoteUploadList this (Some n) net)) = [req] /\
     query req = [("key", VStr (apiKey this)); ("id", VNum n)]).
Proof.
  intros C. split.
  - query_of C (GetRemoteUploadList None).
  - intros n. query_of C (GetRemoteUploadList (Some n)).
Qed.

Lemma remote_upload_list_query_witness :
  constructed example_client /\
  exists req,
    requests (events (getRemoteUploadList example_client None
                        connection_drop)) = [req] /\
    query req = [("key", VStr (apiKey example_client))].
Proof.
  split; [by_construction|].
  exact (proj1 (remote_upload_list_query example_client connection_drop
                  ltac:(by_construction))).
Defined.

(** X7: [cloneUpload(fileCode)] without folder behaves in every respect as
    [cloneUpload(fileCode, 0)], and on a constructed client its query is the
    key, [file_code=fileCode] and [fld_id=0]. *)
Theorem cloneUpload_default_folder this fileCode net :
  cloneUpload this fileCode None net = cloneUpload this fileCode (Some 0) net /\
  (constructed this ->
   exists req,
     requests (events (cloneUpload this fileCode None net)) = [req] /\
     query req = [("key", VStr (apiKey this)); ("file_code", VStr fileCode);
                  ("fld_id", VNum 0)]).
Proof.
  split; [reflexivity|]. intros C. query_of C (CloneUpload fileCode None).
Qed.

Lemma cloneUpload_default_folder_witness :
  constructed example_client /\
  exists req,
    requests (events (cloneUpload example_client "abc" None connection_drop))
    = [req] /\
    query req = [("key", VStr (apiKey example_client));
                 ("file_code", VStr "abc"); ("fld_id", VNum 0)].
Proof.
  split; [by_construction|].
  exact (proj2 (cloneUpload_default_folder example_client "abc" connection_drop)
               ltac:(by_construction)).
Defined.

(** X8: the queries of the other methods, on a constructed client: the two
    account methods and [getUploadServer] send the key alone; [remoteUpload]
    adds [url]; [getFileInfo] and [deleteFile] add [file_code]; [renameFile]
    adds [file_code] and [title]; [moveFile] and [cloneUpload] with a folder
    add [file_code] and [fld_id]; each value is the argument as given. *)
Theorem method_queries this net :
  constructed this ->
  let key := ("key", VStr (apiKey this)) in
  let sends (run : list Event * Result Value) (q : Object) :=
    exists req, requests (events run) = [req] /\ query req = q in
  sends (getAccountInfo this net) [key] /\
  sends (getAccountStats this net) [key] /\
  sends (getUploadServer this net) [key] /\
  (forall u, sends (remoteUpload this u net) [key; ("url", VStr u)]) /\
  (forall fc, sends (getFileInfo this fc net) [key; ("file_code", VStr fc)]) /\
  (forall fc, sends (deleteFile this fc net) [key; ("file_code", VStr fc)]) /\
  (forall fc t, sends (renameFile this fc t net)
                  [key; ("file_code", VStr fc); ("title", VStr t)]) /\
  (forall fc n, sends (moveFile this fc n net)
                  [key; ("file_code", VStr fc); ("fld_id", VNum n)]) /\
  (forall fc n, sends (cloneUpload this fc (Some n) net)
                  [key; ("file_code", VStr fc); ("fld_id", VNum n)]).
Proof.
  intros C key sends. subst key sends. cbv beta.
  split; [query_of C GetAccountInfo|].
  split; [query_of C GetAccountStats|].
  split; [query_of C GetUploadServer|].
  split; [intros u; query_of C (RemoteUpload u)|].
  split; [intros fc; query_of C (GetFileInfo fc)|].
  split; [intros fc; query_of C (DeleteFile fc)|].
  split; [intros fc t; query_of C (RenameFile fc t)|].
  split; [intros fc n; query_of C (MoveFile fc n)|].
  intros fc n; query_of C (CloneUpload fc (Some n)).
Qed.

Lemma method_queries_witness :
  constructed example_client /\
  exists req,
    requests (events (renameFile example_client "abc" "holiday.mp4"
                        connection_drop)) = [req] /\
    query req = [("key", VStr (apiKey example_client));
                 ("file_code", VStr "abc"); ("title", VStr "holiday.mp4")].
Proof.
  split; [by_construction|].
  destruct (method_queries example_client connection_drop
              ltac:(by_construction))
    as (_ & _ & _ & _ & _ & _ & H & _).
  exact (H "abc"%string "holiday.mp4"%string).
Defined.

(** ** The upload's trace *)

Lemma uploadFile_events this s b net :
  match outcome (uploadFile this s b net) with
  | Return _ =>
      events (uploadFile this s b net) = [EvRequest (upload_request s b)]
  | Throw e =>
      events (uploadFile this s b net) =
      [EvRequest (upload_request s b);
       EvLog (logger this) LError "Failed to upload file" (Some (MetaError e))]
  end.
Proof.
  unfold uploadFile, axios_post, axios_request, try_catch, then_, bind,
    dispatchRequest, upload_request, events, outcome; cbn.
  destruct (settle _ _) as [r|e]; reflexivity.
Qed.

(** X9: [uploadFile] writes no info line (the interceptors are not on its
    path): on success its only effect is the request; on failure it logs
    exactly one error line "Failed to upload file", attaching the caught
    error, and throws that same error. *)
Theorem uploadFile_trace this s b net :
  match outcome (uploadFile this s b net) with
  | Return _ =>
      events (uploadFile this s b net) = [EvRequest (upload_request s b)]
  | Throw e =>
      events (uploadFile this s b net) =
      [EvRequest (upload_request s b);
       EvLog (logger this) LError "Failed to upload file" (Some (MetaError e))]
  end.
Proof.
  unfold events, outcome, uploadFile, try_catch, then_.
  unfold axios_post, axios_request, bind, dispatchRequest, upload_request; cbn.
  unfold settle.
  destruct (net _) as [[st tx d] | why | why]; cbn.
  - destruct (validateStatus st); reflexivity.
  - reflexivity.
  - reflexivity.
Qed.

(** ** The logger *)

(** X10: a client logs to the logger given at construction, or to the default
    one when none was given, and to no other: every line written during a
    JSON-endpoint call or an upload goes to that logger. *)
Theorem logs_go_to_configured_logger key options_logger net0 this :
  outcome (VOE_new key options_logger net0) = Return this ->
  let lg := match options_logger with
            | Some l => l
            | None => DefaultLogger
            end in
  logger this = lg /\
  (forall c net, Forall (eq lg) (log_sinks (events (call this c net)))) /\
  (forall s b net, Forall (eq lg) (log_sinks (events (uploadFile this s b net)))).
Proof.
  intros H lg.
  assert (C : constructed this) by (exists key, options_logger, net0; exact H).
  destruct (VOE_new key options_logger net0) as [evs res] eqn:E.
  cbn in H. subst res.
  destruct (VOE_new_inv _ _ _ _ _ E) as (k & _ & Hk & _ & ->).
  fold lg. split; [reflexivity|]. split.
  - intros c net. rewrite call_events_wrapper. run_pipeline.
    destruct (net _) as [[st tx d] | why | why]; cbn.
    + destruct (validateStatus st); cbn; [repeat constructor|].
      destruct d; cbn; try (repeat constructor).
      unfold throw_new_VOEError.
      destruct (convertible _) eqn:Hconv; cbn; rewrite ?Hconv; cbn;
        repeat constructor.
    + repeat constructor.
    + repeat constructor.
  - intros s b net.
    pose proof (uploadFile_events
                  {| apiKey := k; baseURL := VOE_baseURL;
                     client :=
                       use_response
                         (use_request
                            (axios_create VOE_baseURL [("key", VStr k)])
                            (request_logger lg))
                         (response_logger lg) (response_rejected lg);
                     logger := lg |} s b net) as T.
    destruct (outcome _); rewrite T; cbn; repeat constructor.
Qed.

Lemma logs_go_to_configured_logger_witness :
  outcome (VOE_new (Some "k"%string) (Some (CustomLogger 7)) connection_drop)
  = Return {| apiKey := "k";
              baseURL := VOE_baseURL;
              client :=
                use_response
                  (use_request (axios_create VOE_baseURL [("key", VStr "k")])
                     (request_logger (CustomLogger 7)))
                  (response_logger (CustomLogger 7))
                  (response_rejected (CustomLogger 7));
              logger := CustomLogger 7 |} /\
  Forall (eq (CustomLogger 7))
    (log_sinks (events (call {| apiKey := "k";
              baseURL := VOE_baseURL;
              client :=
                use_response
                  (use_request (axios_create VOE_baseURL [("key", VStr "k")])
                     (request_logger (CustomLogger 7)))
                  (response_logger (CustomLogger 7))
                  (response_rejected (CustomLogger 7));
              logger := CustomLogger 7 |} GetAccountInfo connection_drop))).
Proof.
  split; [reflexivity|].
  exact (proj1 (proj2 (logs_go_to_configured_logger (Some "k"%string)
                         (Some (CustomLogger 7)) connection_drop _ eq_refl))
           GetAccountInfo connection_drop).
Defined.

(** ** What the wrapper does to an error that is already a [VOEError] *)

(** X11: the [catch] block of [requestWithErrorHandling] does not look at the
    code of what it caught.  A [VOEError] without response, whatever its
    code, is logged as "Request Error: <message>" and thrown again as a new
    [VOEError] with the same message and the code [REQUEST_ERROR]. *)
Theorem catch_block_discards_code this e net :
  response e = None ->
  requestWithErrorHandling this (throw (ThrownVOE e)) net =
  ([EvLog (logger this) LError ("Request Error: " ++ message e) None],
   Throw (ThrownVOE {| message := message e; name := "VOEAPIError";
                       code := "REQUEST_ERROR"; response := None |})).
Proof.
  intros H.
  unfold requestWithErrorHandling, try_catch, then_, throw; cbn.
  rewrite H. reflexivity.
Qed.

Lemma catch_block_discards_code_witness :
  let e := new_VOEError (VStr "Network error") "NETWORK_ERROR" None in
  response e = None /\
  requestWithErrorHandling example_client (throw (ThrownVOE e)) connection_drop =
  ([EvLog DefaultLogger LError "Request Error: Network error" None],
   Throw (ThrownVOE {| message := "Network error"; name := "VOEAPIError";
                       code := "REQUEST_ERROR"; response := None |})).
Proof.
  cbv zeta. split; [reflexivity|].
  exact (catch_block_discards_code example_client
           (new_VOEError (VStr "Network error") "NETWORK_ERROR" None)
           connection_drop eq_refl).
Defined.

(** ** Replies [getUploadServer] cannot unwrap *)

(** X12: on a 2xx reply whose body is [null] or [undefined],
    [getUploadServer] throws the TypeError of reading [result], which is not
    a [VOEError]: the read happens after the wrapper returned.  On a 2xx
    reply whose body is an object without [result], or a primitive, it
    returns [undefined]. *)
Theorem getUploadServer_without_result this net r :
  constructed this ->
  net (call_request this GetUploadServer) = Responds r ->
  validateStatus (status r) = true ->
  (is_nullish (data r) = true ->
     exists msg, outcome (getUploadServer this net)
                 = Throw (ThrownTypeError msg)) /\
  (forall fields, data r = VObj fields -> lookup fields "result" = None ->
     outcome (getUploadServer this net) = Return VUndefined) /\
  (is_nullish (data r) = false -> is_object (data r) = false ->
     outcome (getUploadServer this net) = Return VUndefined).
Proof.
  intros C Hnet Hs.
  change (getUploadServer this) with (call this GetUploadServer).
  rewrite (call_outcome _ _ _ C), Hnet. cbn. rewrite Hs.
  repeat split.
  - intros Hn. destruct (data r); try discriminate Hn; cbn; eauto.
  - intros fields -> Hl. now apply get_prop_no_field.
  - intros Hn Ho. destruct (data r); try discriminate; reflexivity.
Qed.

Lemma getUploadServer_without_result_witness :
  let r := {| status := 200; statusText := "OK"; data := VNull |} in
  constructed example_client /\
  reply_with 200 "OK" VNull (call_request example_client GetUploadServer)
  = Responds r /\
  validateStatus (status r) = true /\
  is_nullish (data r) = true /\
  exists msg, outcome (getUploadServer example_client (reply_with 200 "OK" VNull))
              = Throw (ThrownTypeError msg).
Proof.
  cbv zeta. split; [by_construction|]. split; [reflexivity|].
  split; [reflexivity|]. split; [reflexivity|].
  exact (proj1 (getUploadServer_without_result example_client
                  (reply_with 200 "OK" VNull)
                  {| status := 200; statusText := "OK"; data := VNull |}
                  ltac:(by_construction) eq_refl eq_refl) eq_refl).
Defined.

(** ** Error replies in general *)

(** X13: every reply outside 2xx, those below 400 included, fails the call
    with [API_ERROR] and the reply attached, provided its body is neither
    [null] nor [undefined] and the body's [message] converts to a string.
    The failure's message is then the string form of that value when it is
    truthy, whatever its type (the number 1000000000000000000000 gives
    "1e+21", the decimal 1.5 gives "1.5"), and "API request failed"
    otherwise. *)
Theorem rejected_reply_is_api_error this c net r m :
  constructed this ->
  net (call_request this c) = Responds r ->
  validateStatus (status r) = false ->
  get_prop (data r) "message" = Return m ->
  convertible m = true ->
  outcome (call this c net) =
  Throw (ThrownVOE {| message := if truthy m then to_string m
                                 else "API request failed";
                      name := "VOEAPIError";
                      code := "API_ERROR";
                      response := Some r |}).
Proof.
  intros C Hnet Hs Hm Hc. apply (call_failure _ _ _ _ C). rewrite Hnet.
  rewrite (surfaced_api_error r m Hs Hm Hc). unfold or_else, new_VOEError.
  destruct (truthy m) eqn:T; [|reflexivity].
  destruct m; try reflexivity. discriminate T.
Qed.

Lemma rejected_reply_is_api_error_witness :
  let d := VObj [("message", VNum 1000000000000000000000)] in
  let r := {| status := 304; statusText := "Not Modified"; data := d |} in
  constructed example_client /\
  reply_with 304 "Not Modified" d (call_request example_client GetAccountInfo)
  = Responds r /\
  validateStatus (status r) = false /\
  get_prop (data r) "message" = Return (VNum 1000000000000000000000) /\
  convertible (VNum 1000000000000000000000) = true /\
  outcome (call example_client GetAccountInfo (reply_with 304 "Not Modified" d))
  = Throw (ThrownVOE {| message := "1e+21"; name := "VOEAPIError";
                        code := "API_ERROR"; response := Some r |}).
Proof.
  cbv zeta. split; [by_construction|]. split; [reflexivity|].
  split; [reflexivity|]. split; [reflexivity|]. split; [reflexivity|].
  exact (rejected_reply_is_api_error example_client GetAccountInfo
           (reply_with 304 "Not Modified"
              (VObj [("message", VNum 1000000000000000000000)]))
           {| status := 304; statusText := "Not Modified";
              data := VObj [("message", VNum 1000000000000000000000)] |}
           (VNum 1000000000000000000000)
           ltac:(by_construction) eq_refl eq_refl eq_refl eq_refl).
Defined.
